(** * Map-Reduce-Chain: the deterministic layer of the action-item pipeline

    A shallow embedding of the Python sources under [src/]:
    [models.py], [validation.py], [confidence_chain.py], [map_chain.py],
    [reduce_chain.py] and [document_loader.py].

    Conventions of the embedding.
    - A Python [str] is the [string] of its UTF-8 bytes.  The delimiters
      the code searches for and splits at are ASCII characters, which occur
      in UTF-8 text only as themselves, so [find], [rfind], [split], [join],
      [in] and slicing act on the bytes as they do on the characters (an
      index is a byte offset); [strip] removes every character Python counts
      as white space, in its UTF-8 form.
    - A Python [float] is an IEEE-754 value, [spec_float]; [<] and [>] are
      [SFltb], so NaN and the infinities behave as they do in Python.
    - [Optional[T]] is [option T]; a Python exception is a value of [exn].
    - [handle_edge_cases] and [score_batch] write into the objects of the
      list they are given.  [Memory] gives the object at every address, and
      the functions named [_in_place] take and return lists of addresses;
      the functions without that suffix read the same loops by value, which
      is what they return when no object is listed twice.
    - The text-generation service, [json.loads], [float(...)], the pydantic
      constructor and the YAML prompt templates are not part of the
      repository: they are fields of the classes [PyRuntime] and
      [Collaborator], and every theorem holds for all of their instances.
    - Logging and wall-clock timing have no influence on the results and are
      left out; the [processing_time] fields are not part of the records. *)

From Stdlib Require Import ZArith String Ascii List Lia.
From Stdlib Require Import Floats.SpecFloat.
From stdpp Require Import base strings gmap list.

Open Scope list_scope.
Open Scope Z_scope.

(* ================================================================== *)
(** * Python builtins on [str] *)
(* ================================================================== *)

Module PyStr.

Definition nl : ascii := ascii_of_nat 10.
Definition colon : ascii := ascii_of_nat 58.

(** [str.isspace] for the characters of one byte: TAB, LF, VT, FF, CR,
    the four separators FS, GS, RS, US, and the space. *)
Definition is_space (c : ascii) : bool :=
  let n := nat_of_ascii c in
  ((9 <=? n)%nat && (n <=? 13)%nat) || ((28 <=? n)%nat && (n <=? 32)%nat).

(** [str.isspace] for the characters of two bytes: U+0085 (C2 85) and
    U+00A0 (C2 A0). *)
Definition is_space2 (c1 c2 : ascii) : bool :=
  let n2 := nat_of_ascii c2 in
  (nat_of_ascii c1 =? 194)%nat && ((n2 =? 133)%nat || (n2 =? 160)%nat).

(** [str.isspace] for the characters of three bytes: U+1680 (E1 9A 80),
    U+2000 to U+200A (E2 80 80 to E2 80 8A), U+2028 and U+2029
    (E2 80 A8, E2 80 A9), U+202F (E2 80 AF), U+205F (E2 81 9F) and
    U+3000 (E3 80 80).  No character of four bytes is white space. *)
Definition is_space3 (c1 c2 c3 : ascii) : bool :=
  let n1 := nat_of_ascii c1 in
  let n2 := nat_of_ascii c2 in
  let n3 := nat_of_ascii c3 in
  ((n1 =? 225)%nat && (n2 =? 154)%nat && (n3 =? 128)%nat)
  || ((n1 =? 226)%nat && (n2 =? 128)%nat
      && (((128 <=? n3)%nat && (n3 <=? 138)%nat)
          || (n3 =? 168)%nat || (n3 =? 169)%nat || (n3 =? 175)%nat))
  || ((n1 =? 226)%nat && (n2 =? 129)%nat && (n3 =? 159)%nat)
  || ((n1 =? 227)%nat && (n2 =? 128)%nat && (n3 =? 128)%nat).

(** Truthiness of a string: [bool(s)]. *)
Definition truthy (s : string) : bool :=
  match s with EmptyString => false | String _ _ => true end.

(** Truthiness of an [Optional[str]]. *)
Definition truthy_opt (o : option string) : bool :=
  match o with None => false | Some s => truthy s end.

(** [s.lstrip()]: the text without the white-space characters it starts
    with. *)
Fixpoint lstrip (s : string) : string :=
  match s with
  | EmptyString => EmptyString
  | String c1 s1 =>
      if is_space c1 then lstrip s1
      else
        match s1 with
        | EmptyString => s
        | String c2 s2 =>
            if is_space2 c1 c2 then lstrip s2
            else
              match s2 with
              | EmptyString => s
              | String c3 s3 => if is_space3 c1 c2 c3 then lstrip s3 else s
              end
        end
  end.

(** The text holds white-space characters only. *)
Definition all_space (s : string) : bool :=
  match lstrip s with EmptyString => true | String _ _ => false end.

(** [s.rstrip()]: the text up to the white-space characters it ends
    with. *)
Fixpoint rstrip (s : string) : string :=
  match s with
  | EmptyString => EmptyString
  | String c s' => if all_space s then EmptyString else String c (rstrip s')
  end.

(** [s.strip()] *)
Definition strip (s : string) : string := rstrip (lstrip s).

Definition lower_char (c : ascii) : ascii :=
  let n := nat_of_ascii c in
  if ((65 <=? n)%nat && (n <=? 90)%nat) then ascii_of_nat (n + 32) else c.

(** [s.lower()] on the letters A to Z; the bytes of the other characters
    stay as they are.  The code searches the result for ASCII words only,
    and no word of [vague_terms] can begin, continue or end in what Python
    makes of a character outside ASCII: only U+212A lowers to an ASCII
    letter alone ("k", in none of the words), and U+0130 to "i" followed by
    a combining dot, where every word goes on with "n". *)
Fixpoint lower (s : string) : string :=
  match s with
  | EmptyString => EmptyString
  | String c s' => String (lower_char c) (lower s')
  end.

(** [needle in hay] *)
Fixpoint contains (needle hay : string) : bool :=
  String.prefix needle hay ||
  match hay with
  | EmptyString => false
  | String _ hay' => contains needle hay'
  end.

(** [c in s] for a one-character needle. *)
Fixpoint has_char (c : ascii) (s : string) : bool :=
  match s with
  | EmptyString => false
  | String d s' => Ascii.eqb d c || has_char c s'
  end.

(** [s.count(c)] for a one-character needle. *)
Fixpoint count_char (c : ascii) (s : string) : Z :=
  match s with
  | EmptyString => 0
  | String d s' => (if Ascii.eqb d c then 1 else 0) + count_char c s'
  end.

(** [s.find(c)]: index of the first occurrence, [-1] when there is none. *)
Fixpoint find (c : ascii) (s : string) : Z :=
  match s with
  | EmptyString => -1
  | String d s' =>
      if Ascii.eqb d c then 0
      else let r := find c s' in if r =? -1 then -1 else r + 1
  end.

(** [s.rfind(c)]: index of the last occurrence, [-1] when there is none. *)
Fixpoint rfind (c : ascii) (s : string) : Z :=
  match s with
  | EmptyString => -1
  | String d s' =>
      let r := rfind c s' in
      if r =? -1 then (if Ascii.eqb d c then 0 else -1) else r + 1
  end.

(** [s[i:j]] for [0 <= i]; the callers guard both indices. *)
Definition slice (s : string) (i j : Z) : string :=
  String.substring (Z.to_nat i) (Z.to_nat (j - i)) s.

(** [s.split(sep)] for a one-character separator: never the empty list. *)
Fixpoint split (sep : ascii) (s : string) : list string :=
  match s with
  | EmptyString => [EmptyString]
  | String c s' =>
      if Ascii.eqb c sep then EmptyString :: split sep s'
      else match split sep s' with
           | [] => [String c EmptyString]
           | p :: ps => String c p :: ps
           end
  end.

(** [s.split(sep, 1)] when [sep in s]: the text before the first
    separator and the text after it. *)
Fixpoint split_once (sep : ascii) (s : string) : option (string * string) :=
  match s with
  | EmptyString => None
  | String c s' =>
      if Ascii.eqb c sep then Some (EmptyString, s')
      else match split_once sep s' with
           | Some (a, b) => Some (String c a, b)
           | None => None
           end
  end.

(** [sep.join(parts)] for a one-character separator. *)
Fixpoint join (sep : ascii) (parts : list string) : string :=
  match parts with
  | [] => EmptyString
  | [p] => p
  | p :: ps => p +:+ String sep (join sep ps)
  end.

End PyStr.

(* ================================================================== *)
(** * Python floats and formatted strings *)
(* ================================================================== *)

Module PyFloat.

Definition float : Type := spec_float.

Definition zero : float := S754_zero false.                       (* 0.0 *)
Definition one : float := S754_finite false 4503599627370496 (-52). (* 1.0 *)
Definition half : float := S754_finite false 4503599627370496 (-53). (* 0.5 *)
Definition f0_4 : float := S754_finite false 7205759403792794 (-54). (* 0.4 *)
Definition f0_9 : float := S754_finite false 8106479329266893 (-53). (* 0.9 *)
Definition f1_5 : float := S754_finite false 6755399441055744 (-52). (* 1.5 *)

(** [a < b], [a > b], [a <= b] on floats. *)
Definition lt (a b : float) : bool := SFltb a b.
Definition gt (a b : float) : bool := SFltb b a.
Definition le (a b : float) : bool := SFleb a b.

(** The builtin [min(a, b)]: the first argument unless the second is
    smaller. *)
Definition min (a b : float) : float := if lt b a then b else a.

(** The builtin [max(a, b)]: the first argument unless the second is
    larger. *)
Definition max (a b : float) : float := if gt b a then b else a.

(** An f-string: literal text and float holes.  The decimal rendering of
    a number is the interpreter's, so a hole keeps the value itself. *)
Inductive piece : Type :=
| Lit (s : string)
| FloatHole (x : float)
| IntHole (n : Z).

Definition fstring : Type := list piece.

(** The text of an f-string, given the interpreter's renderings of floats
    and of integers. *)
Definition render (repr : float -> string) (str_of_int : Z -> string)
    (f : fstring) : string :=
  fold_right (fun p acc =>
                match p with
                | Lit s => s +:+ acc
                | FloatHole x => repr x +:+ acc
                | IntHole n => str_of_int n +:+ acc
                end) EmptyString f.

End PyFloat.

Abbreviation float := PyFloat.float.
Abbreviation fstring := PyFloat.fstring.
Abbreviation Lit := PyFloat.Lit.
Abbreviation FloatHole := PyFloat.FloatHole.
Abbreviation IntHole := PyFloat.IntHole.

(** A literal part of the f-string [why] contains [term]. *)
Definition cites (term : string) (why : fstring) : bool :=
  existsb (fun p => match p with
                    | PyFloat.Lit s => PyStr.contains term s
                    | _ => false
                    end) why.

(* ================================================================== *)
(** * models.py *)
(* ================================================================== *)

Record ActionItem : Type := mkActionItem {
  task : string;
  owner : string;
  deadline : option string;
  confidence : float;
  source_chunk : option Z;
  speaker : option string;
  notes : option string
}.

Definition set_owner (v : string) (i : ActionItem) : ActionItem :=
  mkActionItem (task i) v (deadline i) (confidence i) (source_chunk i)
               (speaker i) (notes i).
Definition set_deadline (v : option string) (i : ActionItem) : ActionItem :=
  mkActionItem (task i) (owner i) v (confidence i) (source_chunk i)
               (speaker i) (notes i).
Definition set_confidence (v : float) (i : ActionItem) : ActionItem :=
  mkActionItem (task i) (owner i) (deadline i) v (source_chunk i)
               (speaker i) (notes i).
Definition set_source_chunk (v : option Z) (i : ActionItem) : ActionItem :=
  mkActionItem (task i) (owner i) (deadline i) (confidence i) v
               (speaker i) (notes i).
Definition set_notes (v : option string) (i : ActionItem) : ActionItem :=
  mkActionItem (task i) (owner i) (deadline i) (confidence i) (source_chunk i)
               (speaker i) v.

(** [MapPhaseOutput]: the fields [items], [chunk_index], [total_chunks] and
    [error]; [processing_time] is left out. *)
Record MapPhaseOutput : Type := mkMapPhaseOutput {
  mp_items : list ActionItem;
  mp_chunk_index : Z;
  mp_total_chunks : Z;
  mp_error : option string
}.

(** [ReducePhaseOutput]: the fields [items], [duplicates_removed],
    [fields_filled] and [notes]; [total_processing_time] is left out. *)
Record ReducePhaseOutput : Type := mkReducePhaseOutput {
  rp_items : list ActionItem;
  duplicates_removed : Z;
  fields_filled : Z;
  rp_notes : option fstring
}.

(** ** Objects in memory

    The items of a list are objects, and [handle_edge_cases] and
    [score_batch] write into the objects they are given.  An object is
    known by its address; the memory gives the object at every address, and
    a list of items is the list of their addresses: an object that is
    listed twice has its address twice. *)
Definition Memory : Type := nat -> ActionItem.

(** The memory after writing [item] at address [a]. *)
Definition store (mem : Memory) (a : nat) (item : ActionItem) : Memory :=
  fun b => if Nat.eqb b a then item else mem b.

(** The objects a list of addresses stands for. *)
Definition objects (mem : Memory) (items : list nat) : list ActionItem :=
  map mem items.

(** How often the address [a] is listed. *)
Definition listed (a : nat) (items : list nat) : nat :=
  length (List.filter (Nat.eqb a) items).

(* ================================================================== *)
(** * validation.py *)
(* ================================================================== *)

Record ValidationLayer : Type := mkValidationLayer {
  confidence_threshold : float
}.

Definition vague_terms : list string :=
  ["something"; "stuff"; "thing"; "whatever"; "etc"].

Definition vague_deadlines : list string :=
  ["soon"; "ASAP"; "when possible"; "this week"].

Definition reason_low_confidence (c t : float) : fstring :=
  [Lit "Confidence too low ("; FloatHole c; Lit " < "; FloatHole t; Lit ")"].
Definition reason_empty : fstring := [Lit "Task is empty"].
Definition reason_vague : fstring := [Lit "Task description is too vague"].
Definition reason_valid : fstring := [Lit "Valid"].

(** [ValidationLayer.validate_item] *)
Definition validate_item (self : ValidationLayer) (item : ActionItem)
  : bool * fstring :=
  if PyFloat.lt (confidence item) (confidence_threshold self) then
    (false, reason_low_confidence (confidence item) (confidence_threshold self))
  else if negb (PyStr.truthy (task item))
          || negb (PyStr.truthy (PyStr.strip (task item))) then
    (false, reason_empty)
  else
    let task_lower := PyStr.lower (task item) in
    if existsb (fun term => PyStr.contains term task_lower) vague_terms then
      (false, reason_vague)
    else
      (true, reason_valid).

(** One turn of the loop of [validate_batch]. *)
Definition validate_batch_step (self : ValidationLayer)
    (acc : list ActionItem * list ActionItem) (item : ActionItem)
  : list ActionItem * list ActionItem :=
  let '(valid_items, invalid_items) := acc in
  let '(is_valid, _) := validate_item self item in
  if is_valid then (valid_items ++ [item], invalid_items)
  else (valid_items, invalid_items ++ [item]).

(** [ValidationLayer.validate_batch] *)
Definition validate_batch (self : ValidationLayer) (items : list ActionItem)
  : list ActionItem * list ActionItem :=
  fold_left (validate_batch_step self) items ([], []).

(** [ValidationLayer.handle_missing_fields] *)
Definition handle_missing_fields (item : ActionItem) : ActionItem :=
  let item :=
    if negb (PyStr.truthy (owner item))
       || String.eqb (PyStr.strip (owner item)) EmptyString
    then set_owner "Unassigned" item else item in
  let item :=
    match deadline item with
    | Some d =>
        if negb (PyStr.truthy d) || String.eqb (PyStr.strip d) EmptyString
        then set_deadline (Some "Not specified") item else item
    | None => set_deadline (Some "Not specified") item
    end in
  let item :=
    if negb (PyStr.truthy_opt (notes item)) then set_notes None item else item in
  item.

Definition deadline_marker : string := " [DEADLINE NEEDS CLARIFICATION]".

(** The body of the loop of [handle_edge_cases], for one item.  The
    multiple-owner test only logs a warning. *)
Definition handle_edge_case (item : ActionItem) : ActionItem :=
  let item := handle_missing_fields item in
  match deadline item with
  | Some d =>
      if PyStr.truthy d
         && existsb (fun term => PyStr.contains term d) vague_deadlines then
        let item :=
          if negb (PyStr.truthy_opt (notes item)) then set_notes (Some EmptyString) item
          else item in
        match notes item with
        | Some n => set_notes (Some (n +:+ deadline_marker)) item
        | None => item
        end
      else item
  | None => item
  end.

(** [ValidationLayer.handle_edge_cases], by value: the items of the
    returned list when every object is listed once
    ([handle_edge_cases_by_value] below). *)
Definition handle_edge_cases (items : list ActionItem) : list ActionItem :=
  fold_left (fun processed_items item =>
               processed_items ++ [handle_edge_case item]) items [].

(** [ValidationLayer.handle_edge_cases] on objects in memory: every turn of
    the loop rewrites the object at hand where it lies and appends it to
    [processed_items]. *)
Definition handle_edge_cases_in_place (mem : Memory) (items : list nat)
  : Memory * list nat :=
  fold_left (fun '(mem, processed_items) a =>
               (store mem a (handle_edge_case (mem a)),
                processed_items ++ [a]))
            items (mem, []).

(* ================================================================== *)
(** * The interpreter, the libraries and the text-generation service *)
(* ================================================================== *)

(** Exceptions, by the classes the code tells apart.  [JSONDecodeError]
    and pydantic's [ValidationError] are subclasses of [ValueError]. *)
Inductive exn : Type :=
| JSONDecodeError (msg : string)
| ValidationError (msg : string)
| ValueError (msg : string)
| AttributeError (msg : string)
| TypeError (msg : string)
| UnboundLocalError (msg : string)
| OtherError (msg : string).

(** [str(e)] *)
Definition str_of_exn (e : exn) : string :=
  match e with
  | JSONDecodeError m | ValidationError m | ValueError m | AttributeError m
  | TypeError m | UnboundLocalError m | OtherError m => m
  end.

(** [isinstance(e, (ValueError, AttributeError))] *)
Definition is_ValueError_or_AttributeError (e : exn) : bool :=
  match e with
  | JSONDecodeError _ | ValidationError _ | ValueError _
  | AttributeError _ => true
  | _ => false
  end.

(** The values [json.loads] returns. *)
#[warnings="-register-all"]
Inductive json : Type :=
| JNull
| JBool (b : bool)
| JInt (n : Z)
| JFloat (x : float)
| JString (s : string)
| JArray (elems : list json)
| JObject (members : list (string * json)).

(** What a call of the service gives back: an exception, or a response
    whose [content] is the text. *)
Inductive reply : Type :=
| Raised (e : exn)
| Content (text : string).

(** Lookup in a table keyed by text, as in a dict whose keys are
    distinct. *)
Fixpoint assoc {A : Type} (k : string) (table : list (string * A)) : option A :=
  match table with
  | [] => None
  | (k', v) :: rest => if String.eqb k' k then Some v else assoc k rest
  end.

(** The library functions the code calls. *)
Class PyRuntime : Type := {
  (** [json.loads(s)]: the value, or the message of the [JSONDecodeError]. *)
  json_loads : string -> string + json;
  (** [json.dumps([item.dict() for item in items], indent=2)] *)
  json_dumps_items : list ActionItem -> string;
  (** [float(s)]; [None] stands for the [ValueError]. *)
  float_of_str : string -> option float;
  (** [template.format(key=value)] *)
  str_format : string -> string -> string -> exn + string;
  (** The constructor [ActionItem], applied to the members of an object
      as keyword arguments: the validated item, or the message of the
      [ValidationError]. *)
  new_ActionItem : list (string * json) -> string + ActionItem;
  (** pydantic's validation of an [int] field. *)
  validate_int : json -> string + Z
}.

(** The text-generation service: its answer to a prompt, which may depend
    on the prompts it has received before. *)
Class Collaborator : Type := {
  answer : list string -> string -> reply
}.

(** The prompts sent to the service so far. *)
Definition World : Type := list string.

(** Computations that call the service. *)
Definition M (A : Type) : Type := World -> A * World.

Definition ret {A : Type} (a : A) : M A := fun w => (a, w).

Definition bind {A B : Type} (m : M A) (k : A -> M B) : M B :=
  fun w => let '(a, w') := m w in k a w'.

Notation "x <- m ;; k" := (bind m (fun x => k))
  (at level 100, m at next level, right associativity).

(** [llm.invoke(prompt)] *)
Definition invoke `{Collaborator} (prompt : string) : M reply :=
  fun w => (answer w prompt, w ++ [prompt]).

(* ================================================================== *)
(** * confidence_chain.py *)
(* ================================================================== *)

(** [str(x)] for an [Optional[str]]. *)
Definition str_of_opt (o : option string) : string :=
  match o with None => "None" | Some s => s end.

(** The prompt of [score_confidence]. *)
Definition confidence_prompt (item : ActionItem) : string :=
  PyStr.join PyStr.nl
    [ EmptyString;
      "        Rate your confidence (0.0-1.0) that this is a genuine, actionable task from a meeting:";
      "        ";
      "        Task: " +:+ task item;
      "        Owner: " +:+ owner item;
      "        Deadline: " +:+ str_of_opt (deadline item);
      "        ";
      "        Consider:";
      "        - How explicit is the task?";
      "        - How clear is the owner?";
      "        - How specific is the deadline?";
      "        ";
      "        Return ONLY a number between 0.0 and 1.0.";
      "        " ].

(** [max(0.0, min(1.0, score))] *)
Definition clamp (score : float) : float :=
  PyFloat.max PyFloat.zero (PyFloat.min PyFloat.one score).

Section ConfidenceChain.
Context `{PyRuntime} `{Collaborator}.

(** [ConfidenceChain.score_confidence].  An exception of the call that is
    a [ValueError] or an [AttributeError] reaches the handler before
    [score_text] is bound, and the handler's log line then raises; any
    other exception of the call leaves the function as it is. *)
Definition score_confidence (item : ActionItem) : M (exn + float) :=
  response <- invoke (confidence_prompt item) ;;
  match response with
  | Raised e =>
      if is_ValueError_or_AttributeError e
      then ret (inl (UnboundLocalError "score_text"))
      else ret (inl e)
  | Content text =>
      let score_text := PyStr.strip text in
      match float_of_str score_text with
      | Some score => ret (inr (clamp score))
      | None => ret (inr (confidence item))
      end
  end.

(** The loop of [score_batch]. *)
Fixpoint score_batch_loop (items scored_items : list ActionItem)
  : M (exn + list ActionItem) :=
  match items with
  | [] => ret (inr scored_items)
  | item :: rest =>
      r <- score_confidence item ;;
      match r with
      | inl e => ret (inl e)
      | inr c => score_batch_loop rest (scored_items ++ [set_confidence c item])
      end
  end.

(** [ConfidenceChain.score_batch], by value: the items of the returned
    list when every object is listed once ([score_batch_by_value]
    below). *)
Definition score_batch (items : list ActionItem) : M (exn + list ActionItem) :=
  score_batch_loop items [].

(** The loop of [score_batch] on objects in memory: every turn writes the
    new confidence into the object at hand; an exception leaves the loop
    with the objects as they are by then. *)
Fixpoint score_batch_in_place_loop (items scored_items : list nat)
    (mem : Memory) : M (Memory * (exn + list nat)) :=
  match items with
  | [] => ret (mem, inr scored_items)
  | a :: rest =>
      r <- score_confidence (mem a) ;;
      match r with
      | inl e => ret (mem, inl e)
      | inr c =>
          score_batch_in_place_loop rest (scored_items ++ [a])
            (store mem a (set_confidence c (mem a)))
      end
  end.

(** [ConfidenceChain.score_batch] on objects in memory. *)
Definition score_batch_in_place (mem : Memory) (items : list nat)
  : M (Memory * (exn + list nat)) :=
  score_batch_in_place_loop items [] mem.

End ConfidenceChain.

(* ================================================================== *)
(** * map_chain.py and reduce_chain.py: shared pieces *)
(* ================================================================== *)

(** The prompt configuration either chain loads from its YAML file. *)
Record prompt_config : Type := mkprompt_config {
  system_prompt : string;
  user_prompt_template : string
}.

Abbreviation MapChain := prompt_config.
Abbreviation ReduceChain := prompt_config.

Definition bracket_open : ascii := ascii_of_nat 91.   (* '[' *)
Definition bracket_close : ascii := ascii_of_nat 93.  (* ']' *)
Definition brace_open : ascii := ascii_of_nat 123.    (* '{' *)
Definition brace_close : ascii := ascii_of_nat 125.   (* '}' *)

(** [json_start != -1 and json_end > json_start] for the delimiters
    [opening] and [closing]. *)
Definition located (opening closing : ascii) (response_text : string) : bool :=
  let json_start := PyStr.find opening response_text in
  let json_end := PyStr.rfind closing response_text + 1 in
  negb (json_start =? -1) && (json_end >? json_start).

(** [response_text[json_start:json_end]] *)
Definition json_str (opening closing : ascii) (response_text : string) : string :=
  let json_start := PyStr.find opening response_text in
  let json_end := PyStr.rfind closing response_text + 1 in
  PyStr.slice response_text json_start json_end.

(** [type(v).__name__] *)
Definition type_name (v : json) : string :=
  match v with
  | JNull => "NoneType"
  | JBool _ => "bool"
  | JInt _ => "int"
  | JFloat _ => "float"
  | JString _ => "str"
  | JArray _ => "list"
  | JObject _ => "dict"
  end.

(** The values a [for] loop over [v] visits: the elements of a list, the
    keys of a dict, the characters of a string; other values are not
    iterable. *)
Definition iterate (v : json) : exn + list json :=
  match v with
  | JArray elems => inr elems
  | JObject members => inr (map (fun kv => JString kv.1) members)
  | JString s =>
      inr (map (fun c => JString (String c EmptyString))
               (list_ascii_of_string s))
  | JNull | JBool _ | JInt _ | JFloat _ =>
      inl (TypeError ("'" +:+ type_name v +:+ "' object is not iterable"))
  end.

(** [d.get(key)] on a value that must be a dict. *)
Definition dict_get (d : json) (key : string) : exn + option json :=
  match d with
  | JObject members => inr (assoc key members)
  | _ =>
      inl (AttributeError
             ("'" +:+ type_name d +:+ "' object has no attribute 'get'"))
  end.

Section Chains.
Context `{PyRuntime} `{Collaborator}.

(** The constructor [ActionItem] applied to [item_data] as keyword
    arguments; only a dict can be unpacked. *)
Definition ActionItem_of (item_data : json) : exn + ActionItem :=
  match item_data with
  | JObject members =>
      match new_ActionItem members with
      | inl msg => inl (ValidationError msg)
      | inr item => inr item
      end
  | _ => inl (TypeError "argument after ** must be a mapping")
  end.

(* ------------------------------------------------------------------ *)
(** ** map_chain.py *)

(** The conversion loop of [extract]: an element that fails is skipped,
    the others are stamped with [chunk_index]. *)
Definition map_items (items_data : list json) (chunk_index : Z)
  : list ActionItem :=
  fold_left (fun items item_data =>
               match ActionItem_of item_data with
               | inr item =>
                   items ++ [set_source_chunk (Some chunk_index) item]
               | inl _ => items
               end) items_data [].

(** The inner [try] of [extract], from the response text on. *)
Definition parse_map_response (response_text : string)
    (chunk_index total_chunks : Z) : MapPhaseOutput :=
  let parsed :=
    if located bracket_open bracket_close response_text
    then json_loads (json_str bracket_open bracket_close response_text)
    else inr (JArray []) in
  match parsed with
  | inl msg =>
      mkMapPhaseOutput [] chunk_index total_chunks
                       (Some ("JSON parsing failed: " +:+ msg))
  | inr items_data =>
      match iterate items_data with
      | inl e =>
          mkMapPhaseOutput [] chunk_index total_chunks (Some (str_of_exn e))
      | inr elems =>
          mkMapPhaseOutput (map_items elems chunk_index) chunk_index
                           total_chunks None
      end
  end.

(** [system_prompt], two newlines, [user_prompt]. *)
Definition full_prompt (self : prompt_config) (user_prompt : string) : string :=
  system_prompt self
  +:+ String PyStr.nl (String PyStr.nl EmptyString) +:+ user_prompt.

(** [MapChain.extract] *)
Definition extract (self : MapChain) (chunk_text : string)
    (chunk_index total_chunks : Z) : M MapPhaseOutput :=
  match str_format (user_prompt_template self) "transcript_chunk"
                   chunk_text with
  | inl e =>
      ret (mkMapPhaseOutput [] chunk_index total_chunks (Some (str_of_exn e)))
  | inr user_prompt =>
      response <- invoke (full_prompt self user_prompt) ;;
      match response with
      | Raised e =>
          ret (mkMapPhaseOutput [] chunk_index total_chunks
                                (Some (str_of_exn e)))
      | Content response_text =>
          ret (parse_map_response response_text chunk_index total_chunks)
      end
  end.

(** The loop of [extract_batch] from index [i] on, [n] being [len(chunks)]. *)
Fixpoint extract_batch_loop (self : MapChain) (chunks : list string)
    (i n : Z) : M (list MapPhaseOutput) :=
  match chunks with
  | [] => ret []
  | chunk :: rest =>
      result <- extract self chunk i n ;;
      results <- extract_batch_loop self rest (i + 1) n ;;
      ret (result :: results)
  end.

(** [MapChain.extract_batch] *)
Definition extract_batch (self : MapChain) (chunks : list string)
  : M (list MapPhaseOutput) :=
  extract_batch_loop self chunks 0 (Z.of_nat (length chunks)).

(* ------------------------------------------------------------------ *)
(** ** reduce_chain.py *)

(** The conversion loop of [consolidate]: an element that fails is
    skipped. *)
Definition reduce_items (items_data : list json) : list ActionItem :=
  fold_left (fun consolidated_items item_data =>
               match ActionItem_of item_data with
               | inr item => consolidated_items ++ [item]
               | inl _ => consolidated_items
               end) items_data [].

(** [summary.get(key, 0)] as the value of an [int] field of
    [ReducePhaseOutput]. *)
Definition summary_counter (summary : json) (key : string) : exn + Z :=
  match dict_get summary key with
  | inl e => inl e
  | inr None => inr 0
  | inr (Some v) =>
      match validate_int v with
      | inl msg => inl (ValidationError msg)
      | inr n => inr n
      end
  end.

(** The inner [try] of [consolidate] after [result_data] is known, up to
    the construction of the output; an exception here is none that the
    inner handler catches. *)
Definition build_reduce_output (result_data : json) (n_items : Z)
  : exn + ReducePhaseOutput :=
  match dict_get result_data "items" with
  | inl e => inl e
  | inr items_field =>
      match iterate (default (JArray []) items_field) with
      | inl e => inl e
      | inr elems =>
          let consolidated_items := reduce_items elems in
          match dict_get result_data "summary" with
          | inl e => inl e
          | inr summary_field =>
              let summary := default (JObject []) summary_field in
              match summary_counter summary "duplicates_removed",
                    summary_counter summary "items_needing_review" with
              | inl e, _ => inl e
              | _, inl e => inl e
              | inr d, inr f =>
                  inr (mkReducePhaseOutput consolidated_items d f
                         (Some [Lit "Consolidated from "; IntHole n_items;
                                Lit " items"]))
              end
          end
      end
  end.

(** What [consolidate] returns from its two handlers: the items it was
    given, zero counters and a note. *)
Definition originals (items : list ActionItem) (note : string)
  : ReducePhaseOutput :=
  mkReducePhaseOutput items 0 0 (Some [Lit note]).

(** [consolidate] from the response text on. *)
Definition parse_reduce_response (items : list ActionItem)
    (response_text : string) : ReducePhaseOutput :=
  let parsed :=
    if located brace_open brace_close response_text
    then json_loads (json_str brace_open brace_close response_text)
    else inr (JObject [("items", JArray [])]) in
  match parsed with
  | inl msg => originals items ("Consolidation failed: " +:+ msg)
  | inr result_data =>
      match build_reduce_output result_data (Z.of_nat (length items)) with
      | inl e => originals items ("Error: " +:+ str_of_exn e)
      | inr output => output
      end
  end.

(** [ReduceChain.consolidate] *)
Definition consolidate (self : ReduceChain) (items : list ActionItem)
  : M ReducePhaseOutput :=
  match items with
  | [] => ret (mkReducePhaseOutput [] 0 0 None)
  | _ :: _ =>
      let items_json := json_dumps_items items in
      match str_format (user_prompt_template self) "items_json"
                       items_json with
      | inl e => ret (originals items ("Error: " +:+ str_of_exn e))
      | inr user_prompt =>
          response <- invoke (full_prompt self user_prompt) ;;
          match response with
          | Raised e => ret (originals items ("Error: " +:+ str_of_exn e))
          | Content response_text =>
              ret (parse_reduce_response items response_text)
          end
      end
  end.

End Chains.

(* ================================================================== *)
(** * document_loader.py *)
(* ================================================================== *)

(** The values held in the metadata of a document. *)
Inductive pyval : Type :=
| PyNone
| PyStr (s : string)
| PyInt (n : Z).

#[global] Instance pyval_eq_dec : EqDecision pyval.
Proof. solve_decision. Defined.

(** [langchain.schema.Document] *)
Record Document : Type := mkDocument {
  page_content : string;
  metadata : gmap string pyval
}.

Record DocumentLoader : Type := mkDocumentLoader {
  chunk_strategy : string
}.

Definition CHUNK_SIZE_MINUTES : Z := 2.

(** [len(xs)] *)
Definition len {A : Type} (xs : list A) : Z := Z.of_nat (length xs).

(** The body of the loop of [ingest] for a line that is not blank. *)
Definition line_document (source : string)
    (extra : option (gmap string pyval)) (i : Z) (line : string) : Document :=
  let doc_metadata : gmap string pyval :=
    <["original_text" := PyStr line]>
      (<["line_index" := PyInt i]> {["source" := PyStr source]}) in
  let '(content, doc_metadata) :=
    match PyStr.split_once PyStr.colon line with
    | Some (before, after) =>
        (PyStr.strip after,
         <["speaker" := PyStr (PyStr.strip before)]> doc_metadata)
    | None => (line, <["speaker" := PyStr "Unknown"]> doc_metadata)
    end in
  let doc_metadata :=
    match extra with
    | Some m => if decide (m = ∅) then doc_metadata else m ∪ doc_metadata
    | None => doc_metadata
    end in
  mkDocument content doc_metadata.

(** The loop of [ingest] over [enumerate(lines)], from index [i] on. *)
Fixpoint ingest_lines (source : string) (extra : option (gmap string pyval))
    (i : Z) (lines : list string) : list Document :=
  match lines with
  | [] => []
  | line :: rest =>
      if PyStr.truthy (PyStr.strip line)
      then line_document source extra i line
           :: ingest_lines source extra (i + 1) rest
      else ingest_lines source extra (i + 1) rest
  end.

(** [DocumentLoader.ingest] *)
Definition ingest (text source : string) (extra : option (gmap string pyval))
  : list Document :=
  ingest_lines source extra 0 (PyStr.split PyStr.nl (PyStr.strip text)).

(** [doc.metadata.get(key, fallback)] *)
Definition metadata_get (doc : Document) (key : string) (fallback : pyval)
  : pyval :=
  default fallback (metadata doc !! key).

(** The chunk a speaker turn is saved as; [doc] is the document whose
    source the chunk records. *)
Definition speaker_chunk (chunk_index : Z) (current_speaker : pyval)
    (current_chunk_content : list string) (doc : Document) : Document :=
  mkDocument
    (PyStr.join PyStr.nl current_chunk_content)
    (<["source" := metadata_get doc "source" (PyStr "unknown")]>
       (<["num_lines" := PyInt (len current_chunk_content)]>
          (<["speaker" := current_speaker]>
             (<["chunk_strategy" := PyStr "speaker_turns"]>
                {["chunk_index" := PyInt chunk_index]})))).

(** The variables of the loop of [chunk_by_speaker_turns]. *)
Record turn_state : Type := mkturn_state {
  chunks : list Document;
  current_chunk_content : list string;
  current_speaker : pyval;
  chunk_index : Z
}.

(** One turn of the loop of [chunk_by_speaker_turns]. *)
Definition turn_step (st : turn_state) (doc : Document) : turn_state :=
  let speaker := metadata_get doc "speaker" (PyStr "Unknown") in
  let st :=
    if negb (bool_decide (current_speaker st = PyNone))
       && negb (bool_decide (speaker = current_speaker st))
    then
      match current_chunk_content st with
      | [] => st
      | _ :: _ =>
          mkturn_state
            (chunks st ++ [speaker_chunk (chunk_index st) (current_speaker st)
                             (current_chunk_content st) doc])
            [] (current_speaker st) (chunk_index st + 1)
      end
    else st in
  mkturn_state (chunks st) (current_chunk_content st ++ [page_content doc])
               speaker (chunk_index st).

(** [DocumentLoader.chunk_by_speaker_turns] *)
Definition chunk_by_speaker_turns (documents : list Document) : list Document :=
  match last documents with
  | None => []
  | Some last_document =>
      let st := fold_left turn_step documents (mkturn_state [] [] PyNone 0) in
      match current_chunk_content st with
      | [] => chunks st
      | _ :: _ =>
          chunks st ++ [speaker_chunk (chunk_index st) (current_speaker st)
                          (current_chunk_content st) last_document]
      end
  end.

(** [range(start, stop, step)] for a positive step; [fuel] bounds the
    number of values. *)
Fixpoint range_from (fuel start stop step : nat) : list nat :=
  match fuel with
  | O => []
  | S fuel' =>
      if (start <? stop)%nat
      then start :: range_from fuel' (start + step) stop step
      else []
  end.

(** [range(0, stop, step)] *)
Definition range (stop step : nat) : list nat := range_from stop 0 stop step.

(** The chunk a batch of lines is saved as. *)
Definition time_chunk (i : Z) (chunk_docs : list Document) (first : Document)
  : Document :=
  mkDocument
    (PyStr.join PyStr.nl (map page_content chunk_docs))
    (<["source" := metadata_get first "source" (PyStr "unknown")]>
       (<["num_lines" := PyInt (len chunk_docs)]>
          (<["chunk_strategy" := PyStr "time_based"]>
             {["chunk_index" := PyInt i]}))).

(** The loop of [chunk_by_time] over the enumerated batches. *)
Fixpoint time_chunks (i : Z) (batches : list (list Document)) : list Document :=
  match batches with
  | [] => []
  | chunk_docs :: rest =>
      match chunk_docs with
      | [] => time_chunks (i + 1) rest
      | first :: _ => time_chunk i chunk_docs first :: time_chunks (i + 1) rest
      end
  end.

(** [DocumentLoader.chunk_by_time]; a chunk size of zero minutes divides by
    zero. *)
Definition chunk_by_time (documents : list Document) (chunk_size_minutes : Z)
  : exn + list Document :=
  if chunk_size_minutes * 30 =? 0
  then inl (OtherError "integer division or modulo by zero")
  else
    let chunk_size :=
      Z.max 1 (len documents
               / Z.max 1 (len documents / (chunk_size_minutes * 30))) in
    let k := Z.to_nat chunk_size in
    inr (time_chunks 0
           (map (fun j => take k (drop j documents))
                (range (length documents) k))).

(** [DocumentLoader.process] *)
Definition process (self : DocumentLoader) (text source : string)
    (extra : option (gmap string pyval)) : exn + list Document :=
  let documents := ingest text source extra in
  if String.eqb (chunk_strategy self) "speaker_turns"
  then inr (chunk_by_speaker_turns documents)
  else if String.eqb (chunk_strategy self) "time_based"
  then chunk_by_time documents CHUNK_SIZE_MINUTES
  else inr (chunk_by_speaker_turns documents).

(* ================================================================== *)
(** * Fixtures: a scripted service and table-driven library functions *)
(* ================================================================== *)

(** A service that gives the [n]-th scripted reply to the [n]-th call and
    [otherwise] once the script is used up. *)
Definition scripted (replies : list reply) (otherwise : reply) : Collaborator :=
  {| answer := fun w _ => nth (length w) replies otherwise |}.

(** The [ActionItem] schema for the values of the examples (text, null,
    floats and whole numbers): [task] is required text; [owner] is text and
    defaults to "Unassigned"; [confidence] is a float or one of the whole
    numbers 0 and 1, lies in the unit interval and defaults to 0.5;
    [deadline], [speaker] and [notes] are text or null; [source_chunk] is a
    whole number or null.  Anything else is refused. *)
Definition fixture_ActionItem (kw : list (string * json)) : string + ActionItem :=
  let text_opt (k : string) : string + option string :=
    match assoc k kw with
    | None | Some JNull => inr None
    | Some (JString s) => inr (Some s)
    | Some _ => inl k
    end in
  let owner_field : string + string :=
    match assoc "owner" kw with
    | None => inr "Unassigned"
    | Some (JString s) => inr s
    | Some _ => inl "owner"
    end in
  let confidence_field : string + float :=
    match assoc "confidence" kw with
    | None => inr PyFloat.half
    | Some (JFloat x) => inr x
    | Some (JInt 0) => inr PyFloat.zero
    | Some (JInt 1) => inr PyFloat.one
    | Some _ => inl "confidence"
    end in
  let source_chunk_field : string + option Z :=
    match assoc "source_chunk" kw with
    | None | Some JNull => inr None
    | Some (JInt n) => inr (Some n)
    | Some _ => inl "source_chunk"
    end in
  match assoc "task" kw, owner_field, text_opt "deadline",
        confidence_field, source_chunk_field,
        text_opt "speaker", text_opt "notes" with
  | Some (JString t), inr ow, inr dl, inr c, inr sc, inr sp, inr nt =>
      if PyFloat.le PyFloat.zero c && PyFloat.le c PyFloat.one
      then inr (mkActionItem t ow dl c sc sp nt)
      else inl "confidence"
  | _, _, _, _, _, _, _ => inl "task"
  end.

(** Library functions given by tables: the texts [float] accepts, with
    their values, and the texts given to [json.loads], with the value or
    the error message each has.  Templates are taken to end with their
    placeholder. *)
Definition fixture_runtime (floats : list (string * float))
    (jsons : list (string * (string + json))) : PyRuntime :=
  {| json_loads := fun s =>
       default (inl "Expecting value: line 1 column 1 (char 0)")
               (assoc s jsons);
     json_dumps_items := fun items =>
       "[" +:+ PyStr.join (ascii_of_nat 44) (map task items) +:+ "]";
     float_of_str := fun s => assoc s floats;
     str_format := fun template _ value => inr (template +:+ value);
     new_ActionItem := fixture_ActionItem;
     validate_int := fun v =>
       match v with JInt n => inr n | _ => inl "int_type" end |}.

(** A text between double quotes, as written in JSON. *)
Definition quoted (s : string) : string :=
  String (ascii_of_nat 34) (s +:+ String (ascii_of_nat 34) EmptyString).

(** The prompts used in the examples. *)
Definition demo_map_chain : MapChain :=
  mkprompt_config "Extract the action items." "Transcript: ".

Definition demo_reduce_chain : ReduceChain :=
  mkprompt_config "Merge duplicate action items." "Items: ".

(** A response of the service to the map prompt: one object that names a
    [source_chunk] of its own, and the value [json.loads] gives for the
    array in it. *)
Definition demo_array_text : string :=
  "[{" +:+ quoted "task" +:+ ": " +:+ quoted "Call Bob" +:+ ", "
  +:+ quoted "source_chunk" +:+ ": 7}]".

Definition demo_array_value : json :=
  JArray [JObject [("task", JString "Call Bob"); ("source_chunk", JInt 7)]].

Definition call_bob : ActionItem :=
  mkActionItem "Call Bob" "Unassigned" None PyFloat.half (Some 3) None None.


(** Responses of the service to the reduce prompt, with the values
    [json.loads] gives for them: one item and no summary; one item and a
    summary; one item and a summary that is a list. *)
Definition demo_object_text : string :=
  "{" +:+ quoted "items" +:+ ": [{" +:+ quoted "task" +:+ ": "
  +:+ quoted "Call Bob" +:+ "}]}".

Definition demo_object_value : json :=
  JObject [("items", JArray [JObject [("task", JString "Call Bob")]])].

Definition demo_summary_text : string :=
  "{" +:+ quoted "items" +:+ ": [{" +:+ quoted "task" +:+ ": "
  +:+ quoted "Call Bob" +:+ "}], " +:+ quoted "summary" +:+ ": {"
  +:+ quoted "duplicates_removed" +:+ ": 1, "
  +:+ quoted "items_needing_review" +:+ ": 2}}".

Definition demo_summary_value : json :=
  JObject [("items", JArray [JObject [("task", JString "Call Bob")]]);
           ("summary", JObject [("duplicates_removed", JInt 1);
                                ("items_needing_review", JInt 2)])].

Definition demo_bad_summary_text : string :=
  "{" +:+ quoted "items" +:+ ": [{" +:+ quoted "task" +:+ ": "
  +:+ quoted "Call Bob" +:+ "}], " +:+ quoted "summary" +:+ ": []}".

Definition demo_bad_summary_value : json :=
  JObject [("items", JArray [JObject [("task", JString "Call Bob")]]);
           ("summary", JArray [])].

(** A response whose only item has no task, which the constructor
    refuses. *)
Definition demo_refused_text : string :=
  "{" +:+ quoted "items" +:+ ": [{" +:+ quoted "owner" +:+ ": "
  +:+ quoted "Bob" +:+ "}]}".

Definition demo_refused_value : json :=
  JObject [("items", JArray [JObject [("owner", JString "Bob")]])].

Definition demo_reduce_runtime : PyRuntime :=
  fixture_runtime []
    [(demo_object_text, inr demo_object_value);
     (demo_summary_text, inr demo_summary_value);
     (demo_bad_summary_text, inr demo_bad_summary_value);
     (demo_refused_text, inr demo_refused_value);
     ("{items: none}",
      inl "Expecting property name enclosed in double quotes: line 1 column 2 (char 1)")].

(** A runtime whose prompt template names a key the code does not pass. *)
Definition broken_template_runtime : PyRuntime :=
  {| json_loads := @json_loads demo_reduce_runtime;
     json_dumps_items := @json_dumps_items demo_reduce_runtime;
     float_of_str := @float_of_str demo_reduce_runtime;
     str_format := fun _ _ _ => inl (OtherError "'meeting'");
     new_ActionItem := fixture_ActionItem;
     validate_int := @validate_int demo_reduce_runtime |}.


(* ================================================================== *)
(** * Vocabulary of the statements *)
(* ================================================================== *)

(** [0.0 <= c <= 1.0] *)
Definition in_unit_interval (c : float) : bool :=
  PyFloat.le PyFloat.zero c && PyFloat.le c PyFloat.one.

(** [c] is [score] brought into the unit interval: 0.0 for a score below
    0, 1.0 for a score above 1, the score itself for a score strictly
    inside, and a float of the same value for a score anywhere in the
    interval (0.0 for the negative zero).  NaN, which is in no order with 0
    and 1, gives 1.0. *)
Definition clamped (score c : float) : Prop :=
  (PyFloat.lt score PyFloat.zero = true -> c = PyFloat.zero)
  /\ (PyFloat.lt PyFloat.one score = true -> c = PyFloat.one)
  /\ (PyFloat.lt PyFloat.zero score = true ->
      PyFloat.lt score PyFloat.one = true -> c = score)
  /\ (in_unit_interval score = true -> SFeqb c score = true)
  /\ (score = S754_nan -> c = PyFloat.one).

(** A line [ingest] keeps: one that holds more than white space. *)
Definition nonblank (line : string) : bool := PyStr.truthy (PyStr.strip line).

(** What [ingest] keeps of a line as the content of its document: the
    text after the first colon, stripped, or the whole line when it has no
    colon. *)
Definition line_content (line : string) : string :=
  match PyStr.split_once PyStr.colon line with
  | Some (_, after) => PyStr.strip after
  | None => line
  end.


(** The lines of the stripped transcript, [text.strip()], that are not
    blank.  White space at the two ends of the transcript is gone from
    them: the first line has lost what led it and the last what trailed
    it; the white space of the lines in between is kept. *)
Definition transcript_lines (text : string) : list string :=
  List.filter nonblank (PyStr.split PyStr.nl (PyStr.strip text)).

(** The text holds no newline. *)
Definition one_line (s : string) : Prop := PyStr.has_char PyStr.nl s = false.



(** The text holds the character [o] and, somewhere after it, the
    character [c]. *)
Definition has_pair (o c : ascii) (text : string) : Prop :=
  exists before between after : string,
    text = before +:+ String o (between +:+ String c after).

Definition thing_task : string := "Review the thing with the team".

(** The task text is not empty, is not white space only and holds no vague
    term: it passes the emptiness rule and the vagueness rule. *)
Definition task_ok (t : string) : bool :=
  PyStr.truthy t && PyStr.truthy (PyStr.strip t)
  && negb (existsb (fun term => PyStr.contains term (PyStr.lower t))
                   vague_terms).

(** [validate_item] accepts the item. *)
Definition is_valid (self : ValidationLayer) (item : ActionItem) : bool :=
  (validate_item self item).1.

(** The owner text is empty or holds only white space. *)
Definition blank (s : string) : bool :=
  negb (PyStr.truthy s) || String.eqb (PyStr.strip s) EmptyString.

(** The deadline text holds one of the vague deadline terms. *)
Definition deadline_flagged (d : string) : bool :=
  existsb (fun term => PyStr.contains term d) vague_deadlines.

(** The notes of an item as text, the empty text when there are none. *)
Definition notes_text (item : ActionItem) : string :=
  match notes item with Some n => n | None => EmptyString end.

(** The fields no function of the validation layer writes. *)
Definition same_core (i o : ActionItem) : Prop :=
  task o = task i /\ confidence o = confidence i
  /\ source_chunk o = source_chunk i /\ speaker o = speaker i.

(** The owner and the deadline as the backfill leaves them. *)
Definition backfilled_owner (o : string) : string :=
  if blank o then "Unassigned" else o.

Definition backfilled_deadline (d : option string) : string :=
  match d with
  | Some d => if blank d then "Not specified" else d
  | None => "Not specified"
  end.

(** The exception [score_confidence] leaves with when the call raises
    [e]. *)
Definition surfaced (e : exn) : exn :=
  if is_ValueError_or_AttributeError e
  then UnboundLocalError "score_text" else e.

Section Accepted.
Context `{PyRuntime}.

(** The elements of a response that the [ActionItem] constructor accepts,
    in their order. *)
Definition accepted (elems : list json) : list ActionItem :=
  omap (fun item_data =>
          match item_data with
          | JObject members =>
              match new_ActionItem members with
              | inr item => Some item
              | inl _ => None
              end
          | _ => None
          end) elems.

End Accepted.

Section Rescored.
Context `{PyRuntime}.

(** [c] is the confidence the response [text] gives an item whose
    confidence was [before]: the number in the text brought into the unit
    interval when [float] accepts the stripped text, and [before] when it
    does not. *)
Definition rescored (text : string) (before c : float) : Prop :=
  (forall score, float_of_str (PyStr.strip text) = Some score ->
                 clamped score c)
  /\ (float_of_str (PyStr.strip text) = None -> c = before).

End Rescored.

(** The note of a consolidation that went through. *)
Definition consolidated_note (n : Z) : fstring :=
  [Lit "Consolidated from "; IntHole n; Lit " items"].

(** The value the caller's extra metadata gives to [key], if any. *)
Definition overrides (extra : option (gmap string pyval)) (key : string)
  : option pyval :=
  match extra with Some m => m !! key | None => None end.

(** The text a document records as the line it was made from. *)
Definition original_text (d : Document) : option string :=
  match metadata d !! "original_text" with
  | Some (PyStr line) => Some line
  | _ => None
  end.

(** The speaker a chunk or a document records. *)
Definition speaker_of (d : Document) : option pyval := metadata d !! "speaker".

(** No two neighbours of the list are equal. *)
Fixpoint no_repeat {A : Type} (l : list A) : Prop :=
  match l with
  | a :: (b :: _) as rest => a <> b /\ no_repeat rest
  | _ => True
  end.

(** The number of lines a chunk records is the number of lines of its
    content. *)
Definition num_lines_right (c : Document) : Prop :=
  metadata c !! "num_lines"
  = Some (PyInt (len (PyStr.split PyStr.nl (page_content c)))).

(** A transcript of [n] lines "Ann: ok". *)
Fixpoint ann_lines (n : nat) : string :=
  match n with
  | O => EmptyString
  | S O => "Ann: ok"
  | S n' => "Ann: ok" +:+ String PyStr.nl (ann_lines n')
  end.

(** Three lines, the first two by one speaker. *)
Definition demo_transcript : string :=
  "Ann: hello" +:+ String PyStr.nl ("Ann: one more thing"
  +:+ String PyStr.nl "Bob: fine").

(** The same three lines with white space around them and a blank line
    among them. *)
Definition indented_transcript : string :=
  "  Ann: hello " +:+ String PyStr.nl ("  Ann: one more thing"
  +:+ String PyStr.nl ("   " +:+ String PyStr.nl "Bob: fine  ")).

(** What holds of the chunks saved so far and of the lines collected for
    the next one, in the loop of [chunk_by_speaker_turns]. *)
Record turn_lines (st : turn_state) : Prop := {
  lines_chunks : Forall num_lines_right (chunks st);
  lines_current : Forall one_line (current_chunk_content st)
}.

(** What holds of the speakers in that loop, between two turns. *)
Record turn_speakers (st : turn_state) : Prop := {
  speakers_differ : no_repeat (map speaker_of (chunks st));
  speakers_last : forall c, last (chunks st) = Some c ->
                            speaker_of c <> Some (current_speaker st);
  speakers_started : current_chunk_content st = [] -> chunks st = [];
  speakers_known : current_chunk_content st <> [] ->
                   current_speaker st <> PyNone
}.

(** An ASCII character that is no white space. *)
Definition plain (c : ascii) : bool :=
  (nat_of_ascii c <? 128)%nat && negb (PyStr.is_space c).

Section Interleaving.
Context {A : Type}.

(** [Interleave l1 l2 l]: the list [l] is split into [l1] and [l2], every
    position of [l] going to exactly one of them, in the order of [l]. *)
Inductive Interleave : list A -> list A -> list A -> Prop :=
| Interleave_nil : Interleave [] [] []
| Interleave_left x l1 l2 l :
    Interleave l1 l2 l -> Interleave (x :: l1) l2 (x :: l)
| Interleave_right x l1 l2 l :
    Interleave l1 l2 l -> Interleave l1 (x :: l2) (x :: l).

End Interleaving.

(* ================================================================== *)
(** * Theorems *)
(* ================================================================== *)

(** ** Floats *)

Lemma SFcompare_antisym (a b : float) :
  SFcompare a b = option_map CompOpp (SFcompare b a).
Proof.
  destruct a as [sa|sa| |sa ma ea], b as [sb|sb| |sb mb eb]; simpl;
    try reflexivity; try (destruct sa; reflexivity);
    try (destruct sb; reflexivity);
    try (destruct sa, sb; reflexivity).
  destruct sa, sb; simpl; try reflexivity;
    rewrite (Z.compare_antisym ea eb);
    destruct (ea ?= eb)%Z; simpl; try reflexivity;
    rewrite (Pos.compare_cont_antisym mb ma Eq); simpl;
    try rewrite CompOpp_involutive; reflexivity.
Qed.

Lemma float_le_not_lt (a b : float) :
  PyFloat.le a b = true -> PyFloat.lt b a = false.
Proof.
  unfold PyFloat.le, PyFloat.lt, SFleb, SFltb.
  rewrite (SFcompare_antisym b a).
  destruct (SFcompare a b) as [[]|]; simpl; congruence.
Qed.

Lemma float_lt_irrefl (a : float) : PyFloat.lt a a = false.
Proof.
  unfold PyFloat.lt, SFltb.
  pose proof (SFcompare_antisym a a) as H.
  destruct (SFcompare a a) as [[]|]; simpl in *; congruence.
Qed.

Example strip_ex : PyStr.strip "  a b  " = "a b".
Proof. reflexivity. Qed.

(** ** validation.py *)

Example thing_task_is_vague :
  existsb (fun term => PyStr.contains term (PyStr.lower thing_task))
          vague_terms = true.
Proof. reflexivity. Qed.

(** C4, as the code has it.  An item whose task is "Review the thing with
    the team" is rejected whatever its confidence and its other fields; the
    reason is the fixed text "Task description is too vague" when the
    confidence is not below the threshold, and the low-confidence reason
    when it is, the confidence rule being tested first. *)
Theorem C4_thing_task_rejected (self : ValidationLayer) (c : float)
    (ow : string) (dl : option string) (sc : option Z)
    (sp nt : option string) :
  validate_item self (mkActionItem thing_task ow dl c sc sp nt)
  = (false,
     if PyFloat.lt c (confidence_threshold self)
     then reason_low_confidence c (confidence_threshold self)
     else reason_vague).
Proof.
  unfold validate_item; simpl confidence; simpl task.
  destruct (PyFloat.lt c (confidence_threshold self)); reflexivity.
Qed.

(** C4 fails as stated: with threshold 0.4 and confidence 0.0 the item is
    rejected for its confidence, and the reason mentions neither vagueness
    nor the term "thing". *)
Lemma C4_counterexample :
  let item := mkActionItem thing_task "Unassigned" None PyFloat.zero
                           None None None in
  let r := validate_item (mkValidationLayer PyFloat.f0_4) item in
  r = (false, reason_low_confidence PyFloat.zero PyFloat.f0_4)
  /\ r.2 <> reason_vague
  /\ cites "vague" r.2 = false
  /\ cites "thing" r.2 = false.
Proof. repeat split; try reflexivity; discriminate. Qed.

(** C5, as the code has it.  For an item whose task is not empty, not
    white space only and not vague: a confidence strictly below the
    threshold rejects it, with a reason that holds both the confidence and
    the threshold; the same item with a confidence equal to the threshold,
    or at least the threshold, is accepted. *)
Theorem C5_threshold_gate (self : ValidationLayer) (item : ActionItem) :
  task_ok (task item) = true ->
  (PyFloat.lt (confidence item) (confidence_threshold self) = true ->
     validate_item self item
     = (false, reason_low_confidence (confidence item)
                                     (confidence_threshold self))
     /\ In (FloatHole (confidence item)) (validate_item self item).2
     /\ In (FloatHole (confidence_threshold self))
           (validate_item self item).2)
  /\ (forall c' : float,
        c' = confidence_threshold self
        \/ PyFloat.le (confidence_threshold self) c' = true ->
        validate_item self (set_confidence c' item) = (true, reason_valid)).
Proof.
  intros Hok. unfold task_ok in Hok.
  apply andb_prop in Hok as [Hok Hv]. apply andb_prop in Hok as [Ht Hs].
  apply negb_true_iff in Hv.
  split.
  - intros Hlt. unfold validate_item. rewrite Hlt.
    unfold reason_low_confidence. cbn [snd In].
    split; [reflexivity | split]; auto.
  - intros c' Hc'.
    assert (Hge : PyFloat.lt c' (confidence_threshold self) = false).
    { destruct Hc' as [-> | Hle];
        [apply float_lt_irrefl | now apply float_le_not_lt]. }
    unfold validate_item, set_confidence. cbn [confidence task].
    rewrite Hge, Ht, Hs. cbn [negb orb]. now rewrite Hv.
Qed.

Lemma C5_threshold_gate_witness :
  let self := mkValidationLayer PyFloat.f0_4 in
  let item := mkActionItem "Send the report to finance" "Dana"
                           (Some "Friday") PyFloat.zero None None None in
  validate_item self item
  = (false, reason_low_confidence PyFloat.zero PyFloat.f0_4)
  /\ validate_item self (set_confidence PyFloat.f0_4 item)
     = (true, reason_valid)
  /\ validate_item self (set_confidence PyFloat.f0_9 item)
     = (true, reason_valid).
Proof.
  intros self item.
  destruct (C5_threshold_gate self item eq_refl) as [Hlow Hacc].
  split; [apply Hlow; reflexivity | split].
  - apply Hacc. left. reflexivity.
  - apply Hacc. right. reflexivity.
Defined.

(** C5 fails as stated: a task of one space is not empty and holds no vague
    term, and with threshold 0.4 and confidence 0.9, which is not below the
    threshold, the item is rejected, as one whose task is empty. *)
Lemma C5_counterexample :
  let self := mkValidationLayer PyFloat.f0_4 in
  let item := mkActionItem " " "Dana" (Some "Friday") PyFloat.f0_9
                           None None None in
  task item <> EmptyString
  /\ existsb (fun term => PyStr.contains term (PyStr.lower (task item)))
             vague_terms = false
  /\ PyFloat.lt (confidence item) (confidence_threshold self) = false
  /\ PyFloat.le (confidence_threshold self) (confidence item) = true
  /\ validate_item self item = (false, reason_empty).
Proof. repeat split; try reflexivity; discriminate. Qed.

(** White space beyond ASCII counts as Python counts it: a task of one
    NO-BREAK SPACE (bytes C2 A0) or one EM SPACE (bytes E2 80 83) is an
    empty task. *)
Example nbsp_task_is_empty :
  let nbsp := String (ascii_of_nat 194) (String (ascii_of_nat 160) EmptyString) in
  let em := String (ascii_of_nat 226)
              (String (ascii_of_nat 128) (String (ascii_of_nat 131) EmptyString)) in
  let self := mkValidationLayer PyFloat.f0_4 in
  validate_item self (mkActionItem nbsp "Dana" None PyFloat.f0_9 None None None)
  = (false, reason_empty)
  /\ validate_item self (mkActionItem em "Dana" None PyFloat.f0_9 None None None)
     = (false, reason_empty)
  /\ PyStr.strip (nbsp +:+ "a" +:+ em +:+ "b " +:+ em) = "a" +:+ em +:+ "b".
Proof. repeat split. Qed.

Lemma validate_batch_fold (self : ValidationLayer) (items v r : list ActionItem) :
  fold_left (validate_batch_step self) items (v, r)
  = (v ++ List.filter (is_valid self) items,
     r ++ List.filter (fun i => negb (is_valid self i)) items).
Proof.
  revert v r. induction items as [|x xs IH]; intros v r.
  - simpl. now rewrite !app_nil_r.
  - cbn [fold_left List.filter].
    assert (Hstep : validate_batch_step self (v, r) x
                     = if is_valid self x then (v ++ [x], r)
                       else (v, r ++ [x])).
    { unfold validate_batch_step, is_valid.
      now destruct (validate_item self x) as [[] why]. }
    rewrite Hstep.
    destruct (is_valid self x); simpl; rewrite IH;
      now rewrite <- app_assoc.
Qed.

Lemma validate_batch_filter (self : ValidationLayer) (items : list ActionItem) :
  validate_batch self items
  = (List.filter (is_valid self) items,
     List.filter (fun i => negb (is_valid self i)) items).
Proof. unfold validate_batch. now rewrite validate_batch_fold. Qed.

Lemma filter_interleave {A : Type} (p : A -> bool) (l : list A) :
  Interleave (List.filter p l) (List.filter (fun x => negb (p x)) l) l.
Proof.
  induction l as [|x xs IH]; simpl; [constructor|].
  destruct (p x); simpl; now constructor.
Qed.

Lemma filter_sublist {A : Type} (p : A -> bool) (l : list A) :
  sublist (List.filter p l) l.
Proof.
  induction l as [|x xs IH]; simpl; [constructor|].
  destruct (p x); now constructor.
Qed.

Lemma interleave_length {A : Type} (l1 l2 l : list A) :
  Interleave l1 l2 l -> (length l1 + length l2 = length l)%nat.
Proof. induction 1; simpl; lia. Qed.

Lemma interleave_perm {A : Type} (l1 l2 l : list A) :
  Interleave l1 l2 l -> l ≡ₚ l1 ++ l2.
Proof.
  induction 1; simpl; [reflexivity | now f_equiv |].
  rewrite IHInterleave. apply Permutation_middle.
Qed.

(** C10.  [validate_batch] splits its input into the accepted and the
    rejected items: every position of the input goes to exactly one of the
    two lists, each list keeps the input's order, the two lengths add up to
    the input's, the first list holds exactly the items [validate_item]
    accepts and the second those it rejects. *)
Theorem C10_validate_batch_partition (self : ValidationLayer)
    (items : list ActionItem) :
  let '(valid_items, invalid_items) := validate_batch self items in
  Interleave valid_items invalid_items items
  /\ (length valid_items + length invalid_items = length items)%nat
  /\ sublist valid_items items
  /\ sublist invalid_items items
  /\ items ≡ₚ valid_items ++ invalid_items
  /\ Forall (fun i => is_valid self i = true) valid_items
  /\ Forall (fun i => is_valid self i = false) invalid_items.
Proof.
  rewrite validate_batch_filter.
  pose proof (filter_interleave (is_valid self) items) as HI.
  repeat split; auto using filter_sublist, interleave_length, interleave_perm.
  - apply List.Forall_forall. intros x Hx. now apply List.filter_In in Hx.
  - apply List.Forall_forall. intros x Hx. apply List.filter_In in Hx.
    now apply negb_true_iff.
Qed.

Lemma handle_edge_cases_fold (items acc : list ActionItem) :
  fold_left (fun processed_items item =>
               processed_items ++ [handle_edge_case item]) items acc
  = acc ++ map handle_edge_case items.
Proof.
  revert acc. induction items as [|x xs IH]; intros acc; simpl.
  - now rewrite app_nil_r.
  - rewrite IH. now rewrite <- app_assoc.
Qed.

Lemma handle_edge_cases_map (items : list ActionItem) :
  handle_edge_cases items = map handle_edge_case items.
Proof. unfold handle_edge_cases. now rewrite handle_edge_cases_fold. Qed.


(** *** Objects in memory *)

Lemma store_same (mem : Memory) (a : nat) (x : ActionItem) :
  store mem a x a = x.
Proof. unfold store. now rewrite Nat.eqb_refl. Qed.

Lemma store_other (mem : Memory) (a b : nat) (x : ActionItem) :
  b <> a -> store mem a x b = mem b.
Proof. intros Hne. unfold store. now apply Nat.eqb_neq in Hne as ->. Qed.

Lemma listed_cons (a x : nat) (items : list nat) :
  listed a (x :: items)
  = ((if Nat.eqb a x then 1 else 0) + listed a items)%nat.
Proof. unfold listed. simpl. now destruct (Nat.eqb a x). Qed.

Lemma listed_absent (a : nat) (items : list nat) :
  ~ In a items -> listed a items = 0%nat.
Proof.
  induction items as [|x xs IH]; intros Hno; [reflexivity|].
  rewrite listed_cons. destruct (Nat.eqb_spec a x) as [->|Hne].
  - exfalso. apply Hno. now left.
  - apply IH. intros Hin. apply Hno. now right.
Qed.

Lemma listed_present (a : nat) (items : list nat) :
  In a items -> (0 < listed a items)%nat.
Proof.
  induction items as [|x xs IH]; intros Hin; [destruct Hin|].
  rewrite listed_cons. destruct (Nat.eqb_spec a x) as [->|Hne]; [lia|].
  destruct Hin as [->|Hin]; [now destruct Hne | now apply IH].
Qed.

Lemma listed_once (a : nat) (items : list nat) :
  List.NoDup items -> In a items -> listed a items = 1%nat.
Proof.
  induction 1 as [|x xs Hx Hxs IH]; intros Hin; [destruct Hin|].
  rewrite listed_cons. destruct (Nat.eqb_spec a x) as [->|Hne].
  - now rewrite (listed_absent x xs Hx).
  - destruct Hin as [->|Hin]; [now destruct Hne | now apply IH].
Qed.

Lemma lookup_In {A : Type} (l : list A) (k : nat) (a : A) :
  l !! k = Some a -> In a l.
Proof.
  revert k. induction l as [|x xs IH]; intros [|k] Hk; try discriminate Hk.
  - injection Hk as ->. now left.
  - right. exact (IH k Hk).
Qed.

Lemma iter_shift {A : Type} (f : A -> A) (n : nat) (x : A) :
  Nat.iter n f (f x) = f (Nat.iter n f x).
Proof. induction n as [|n IH]; simpl; [reflexivity | now rewrite IH]. Qed.

Lemma handle_edge_cases_in_place_fold (items acc : list nat) (mem : Memory) :
  exists mem' : Memory,
    fold_left (fun '(mem, processed_items) a =>
                 (store mem a (handle_edge_case (mem a)),
                  processed_items ++ [a]))
              items (mem, acc)
    = (mem', acc ++ items)
    /\ forall b, mem' b = Nat.iter (listed b items) handle_edge_case (mem b).
Proof.
  revert acc mem. induction items as [|x xs IH]; intros acc mem.
  - exists mem. simpl. now rewrite app_nil_r.
  - destruct (IH (acc ++ [x]) (store mem x (handle_edge_case (mem x))))
      as (mem' & Hrun & Hmem).
    exists mem'. split.
    + cbn [fold_left]. rewrite Hrun. now rewrite <- app_assoc.
    + intros b. rewrite Hmem, listed_cons.
      destruct (Nat.eqb_spec b x) as [->|Hne].
      * rewrite store_same. cbn [Nat.add Nat.iter]. apply iter_shift.
      * now rewrite store_other.
Qed.

(** What [handle_edge_cases] leaves in memory: the list it was given, and
    every object rewritten as often as it is listed. *)
Lemma handle_edge_cases_in_place_spec (mem : Memory) (items : list nat) :
  exists mem' : Memory,
    handle_edge_cases_in_place mem items = (mem', items)
    /\ forall b, mem' b = Nat.iter (listed b items) handle_edge_case (mem b).
Proof.
  destruct (handle_edge_cases_in_place_fold items [] mem) as (mem' & Hrun & Hmem).
  exists mem'. now split.
Qed.

(** On a list that holds every object once, the objects [handle_edge_cases]
    leaves are the items of [handle_edge_cases] by value. *)
Lemma handle_edge_cases_by_value (mem : Memory) (items : list nat) :
  List.NoDup items ->
  exists mem' : Memory,
    handle_edge_cases_in_place mem items = (mem', items)
    /\ objects mem' items = handle_edge_cases (objects mem items).
Proof.
  intros Hnd.
  destruct (handle_edge_cases_in_place_spec mem items) as (mem' & Hrun & Hmem).
  exists mem'. split; [exact Hrun|].
  rewrite handle_edge_cases_map. unfold objects. rewrite List.map_map.
  apply List.map_ext_in. intros a Hin.
  rewrite Hmem, (listed_once a items Hnd Hin). reflexivity.
Qed.



(** An object that is listed twice is rewritten twice, and is left with
    the marker twice; an owner of one NO-BREAK SPACE is white space only. *)
Example handle_edge_cases_listed_twice :
  let nbsp := String (ascii_of_nat 194) (String (ascii_of_nat 160) EmptyString) in
  let item := mkActionItem "Book the venue" nbsp (Some "ASAP")
                           PyFloat.f0_9 (Some 2) None None in
  let mem' := (handle_edge_cases_in_place (fun _ => item) [5; 5]%nat).1 in
  notes (mem' 5%nat)
  = Some " [DEADLINE NEEDS CLARIFICATION] [DEADLINE NEEDS CLARIFICATION]"
  /\ owner (mem' 5%nat) = "Unassigned"
  /\ mem' 6%nat = item.
Proof. repeat split. Qed.


(** ** confidence_chain.py *)

Lemma SFltb_SFleb (a b : float) : SFltb a b = true -> SFleb a b = true.
Proof. unfold SFltb, SFleb. now destruct (SFcompare a b) as [[]|]. Qed.

Lemma clamp_in_unit_interval (score : float) :
  in_unit_interval (clamp score) = true.
Proof.
  unfold in_unit_interval, clamp, PyFloat.max, PyFloat.min, PyFloat.gt,
    PyFloat.lt, PyFloat.le.
  destruct (SFltb score PyFloat.one) eqn:H1.
  - destruct (SFltb PyFloat.zero score) eqn:H0.
    + now rewrite (SFltb_SFleb _ _ H0), (SFltb_SFleb _ _ H1).
    + reflexivity.
  - reflexivity.
Qed.

Lemma float_lt_zero_lt_one (x : float) :
  PyFloat.lt x PyFloat.zero = true -> PyFloat.lt x PyFloat.one = true.
Proof.
  intros H0.
  destruct x as [s|s| |s m e]; try destruct s; try discriminate; reflexivity.
Qed.

Lemma float_lt_not_lt (a b : float) :
  PyFloat.lt a b = true -> PyFloat.lt b a = false.
Proof.
  unfold PyFloat.lt, SFltb. rewrite (SFcompare_antisym b a).
  destruct (SFcompare a b) as [[]|]; simpl; congruence.
Qed.

Lemma SFcompare_refl (x : float) :
  x <> S754_nan -> SFcompare x x = Some Eq.
Proof.
  intros Hx. pose proof (SFcompare_antisym x x) as H.
  destruct (SFcompare x x) as [[]|] eqn:E; simpl in H; try congruence.
  destruct x as [s|s| |s m e]; try discriminate E; congruence.
Qed.

(** [clamp] brings its argument into the unit interval. *)
Lemma clamp_clamped (score : float) : clamped score (clamp score).
Proof.
  unfold clamped, clamp, PyFloat.max, PyFloat.min, PyFloat.gt.
  split; [|split; [|split; [|split]]].
  - intros Hlt. pose proof (float_lt_zero_lt_one _ Hlt) as H1.
    pose proof (float_lt_not_lt _ _ Hlt) as H2.
    unfold PyFloat.lt in *. now rewrite H1, H2.
  - intros Hgt. pose proof (float_lt_not_lt _ _ Hgt) as H2.
    unfold PyFloat.lt in *. now rewrite H2.
  - intros H0 H1. unfold PyFloat.lt in *. now rewrite H1, H0.
  - intros Hin. unfold in_unit_interval in Hin.
    apply andb_prop in Hin as [H0 H1].
    assert (Hx : score <> S754_nan) by (intros ->; discriminate H0).
    unfold PyFloat.le, PyFloat.lt, SFleb, SFeqb in *.
    destruct (SFltb score PyFloat.one) eqn:L1.
    + destruct (SFltb PyFloat.zero score) eqn:L0.
      * now rewrite SFcompare_refl.
      * revert H0 L0. unfold SFltb.
        destruct (SFcompare PyFloat.zero score) as [[]|]; congruence.
    + change (if SFltb PyFloat.zero PyFloat.one
              then PyFloat.one else PyFloat.zero) with PyFloat.one.
      revert H1 L1. unfold SFltb.
      rewrite (SFcompare_antisym PyFloat.one score).
      destruct (SFcompare score PyFloat.one) as [[]|]; simpl; congruence.
  - intros ->. reflexivity.
Qed.

Lemma set_confidence_same (item : ActionItem) :
  set_confidence (confidence item) item = item.
Proof. now destruct item. Qed.

Section ConfidenceChainFacts.
Context `{PyRuntime} `{Collaborator}.

Lemma score_confidence_content (item : ActionItem) (w : World) (text : string) :
  answer w (confidence_prompt item) = Content text ->
  score_confidence item w
  = (inr (match float_of_str (PyStr.strip text) with
          | Some score => clamp score
          | None => confidence item
          end),
     w ++ [confidence_prompt item]).
Proof.
  intros Ha. unfold score_confidence, bind, invoke. rewrite Ha.
  now destruct (float_of_str (PyStr.strip text)).
Qed.

Lemma score_confidence_rescored (item : ActionItem) (w : World) (text : string) :
  in_unit_interval (confidence item) = true ->
  answer w (confidence_prompt item) = Content text ->
  exists c : float,
    score_confidence item w = (inr c, w ++ [confidence_prompt item])
    /\ in_unit_interval c = true
    /\ rescored text (confidence item) c.
Proof.
  intros Hin Ha. rewrite (score_confidence_content item w text Ha).
  unfold rescored.
  destruct (float_of_str (PyStr.strip text)) as [score|].
  - exists (clamp score). split; [reflexivity|]. split; [|split].
    + apply clamp_in_unit_interval.
    + intros ? [= <-]. apply clamp_clamped.
    + discriminate.
  - exists (confidence item). split; [reflexivity|]. split; [assumption|].
    split; [discriminate | reflexivity].
Qed.

Lemma score_batch_loop_bounds (items acc : list ActionItem) (w : World) :
  (forall w' p, exists text, answer w' p = Content text) ->
  Forall (fun i => in_unit_interval (confidence i) = true) items ->
  exists scored w',
    score_batch_loop items acc w = (inr (acc ++ scored), w')
    /\ Forall2 (fun i o => o = set_confidence (confidence o) i) items scored
    /\ Forall (fun i => in_unit_interval (confidence i) = true) scored.
Proof.
  intros Htext. revert acc w.
  induction items as [|item rest IH]; intros acc w Hitems.
  - exists [], w. simpl. rewrite app_nil_r. repeat split; constructor.
  - inversion Hitems as [|? ? Hitem Hrest]; subst.
    destruct (Htext w (confidence_prompt item)) as [text Ha].
    cbn [score_batch_loop]. unfold bind at 1.
    rewrite (score_confidence_content item w text Ha).
    set (c := match float_of_str (PyStr.strip text) with
              | Some score => clamp score
              | None => confidence item
              end).
    assert (Hc : in_unit_interval c = true).
    { subst c. destruct (float_of_str (PyStr.strip text));
        [apply clamp_in_unit_interval | assumption]. }
    destruct (IH (acc ++ [set_confidence c item])
                 (w ++ [confidence_prompt item]) Hrest)
      as (scored & w' & Hrun & Hsame & Hall).
    exists (set_confidence c item :: scored), w'. rewrite Hrun.
    rewrite <- app_assoc. repeat split.
    + now constructor.
    + now constructor.
Qed.

(** Writing a confidence into an object leaves its prompt as it was. *)
Lemma store_confidence_prompt (mem : Memory) (x : nat) (c : float) (b : nat) :
  confidence_prompt (store mem x (set_confidence c (mem x)) b)
  = confidence_prompt (mem b).
Proof.
  destruct (Nat.eq_dec b x) as [->|Hne].
  - now rewrite store_same.
  - now rewrite store_other.
Qed.

Lemma score_batch_in_place_loop_spec (items acc : list nat) (mem : Memory)
    (w : World) :
  (forall w' p, exists text, answer w' p = Content text) ->
  (forall a, In a items -> in_unit_interval (confidence (mem a)) = true) ->
  exists mem' : Memory,
    score_batch_in_place_loop items acc mem w
    = ((mem', inr (acc ++ items)),
       w ++ map (fun b => confidence_prompt (mem b)) items)
    /\ (forall a, In a items -> in_unit_interval (confidence (mem' a)) = true)
    /\ (forall a, mem' a = set_confidence (confidence (mem' a)) (mem a))
    /\ (forall a, ~ In a items -> mem' a = mem a)
    /\ (forall (k a : nat) (reply : string),
          listed a items = 1%nat ->
          items !! k = Some a ->
          answer (w ++ map (fun b => confidence_prompt (mem b)) (take k items))
                 (confidence_prompt (mem a)) = Content reply ->
          rescored reply (confidence (mem a)) (confidence (mem' a))).
Proof.
  intros Htext. revert acc mem w.
  induction items as [|x rest IH]; intros acc mem w Hitems.
  - exists mem. cbn [score_batch_in_place_loop map]. unfold ret.
    rewrite !app_nil_r. split; [reflexivity|]. split; [intros a []|].
    split; [intros a; now rewrite set_confidence_same|].
    split; [reflexivity|]. intros k a reply _ Hk. destruct k; discriminate Hk.
  - destruct (Htext w (confidence_prompt (mem x))) as [text Ha].
    destruct (score_confidence_rescored (mem x) w text
                (Hitems x (or_introl eq_refl)) Ha) as (c & Hc & Hcb & Hcr).
    set (mem1 := store mem x (set_confidence c (mem x))).
    assert (Hprompt : forall l : list nat,
               map (fun b => confidence_prompt (mem1 b)) l
               = map (fun b => confidence_prompt (mem b)) l).
    { intros l. apply List.map_ext. intros b. apply store_confidence_prompt. }
    destruct (IH (acc ++ [x]) mem1 (w ++ [confidence_prompt (mem x)]))
      as (mem' & Hrun & Hb & Hsame & Hframe & Hrel).
    { intros a Hin. subst mem1. destruct (Nat.eq_dec a x) as [->|Hne].
      - now rewrite store_same.
      - rewrite store_other by assumption. apply Hitems. now right. }
    exists mem'. split; [|split; [|split; [|split]]].
    + cbn [score_batch_in_place_loop]. unfold bind at 1. rewrite Hc.
      fold mem1. rewrite Hrun, Hprompt. cbn [map].
      now rewrite <- !app_assoc.
    + intros a Hin. destruct (in_dec Nat.eq_dec a rest) as [Hr|Hr].
      * now apply Hb.
      * destruct Hin as [<-|Hin]; [|contradiction].
        rewrite (Hframe x Hr). subst mem1. now rewrite store_same.
    + intros a. rewrite (Hsame a) at 1. subst mem1.
      destruct (Nat.eq_dec a x) as [->|Hne].
      * now rewrite store_same.
      * now rewrite store_other.
    + intros a Hno. rewrite Hframe.
      * subst mem1. apply store_other. intros ->. apply Hno. now left.
      * intros Hin. apply Hno. now right.
    + intros k a reply Hone Hk Hans. rewrite listed_cons in Hone.
      destruct k as [|k].
      * injection Hk as <-. rewrite Nat.eqb_refl in Hone.
        assert (Hr : ~ In x rest).
        { intros Hin. apply listed_present in Hin. lia. }
        rewrite (Hframe x Hr). subst mem1. rewrite store_same.
        cbn [take map] in Hans. rewrite app_nil_r in Hans.
        rewrite Ha in Hans. injection Hans as <-. exact Hcr.
      * cbn [lookup list_lookup] in Hk.
        assert (Hin : In a rest).
        { exact (lookup_In rest k a Hk). }
        destruct (Nat.eqb_spec a x) as [->|Hne].
        { apply listed_present in Hin. lia. }
        assert (Ha1 : mem1 a = mem a) by (subst mem1; now apply store_other).
        rewrite <- Ha1. apply (Hrel k a reply Hone Hk).
        rewrite Hprompt, Ha1, <- app_assoc. exact Hans.
Qed.

(** On a list that holds every object once, [score_batch] leaves the
    objects that [score_batch] by value returns, and fails as it does. *)
Lemma score_batch_loop_by_value (items acc : list nat)
    (acc_items : list ActionItem) (mem : Memory) (w : World) :
  List.NoDup items ->
  exists (mem' : Memory) (r : exn + list nat) (w' : World),
    score_batch_in_place_loop items acc mem w = ((mem', r), w')
    /\ (forall a, ~ In a items -> mem' a = mem a)
    /\ ((r = inr (acc ++ items)
         /\ score_batch_loop (objects mem items) acc_items w
            = (inr (acc_items ++ objects mem' items), w'))
        \/ (exists e, r = inl e
                      /\ score_batch_loop (objects mem items) acc_items w
                         = (inl e, w'))).
Proof.
  intros Hnd. revert acc acc_items mem w.
  induction Hnd as [|x rest Hx Hrest IH]; intros acc acc_items mem w.
  - exists mem, (inr (acc ++ [])), w. split; [now rewrite app_nil_r|].
    split; [reflexivity|]. left. split; [reflexivity|].
    cbn [objects map score_batch_loop]. unfold ret. now rewrite app_nil_r.
  - assert (Hplace :
      score_batch_in_place_loop (x :: rest) acc mem w
      = match score_confidence (mem x) w with
        | (inl e, w1) => ((mem, inl e), w1)
        | (inr c, w1) =>
            score_batch_in_place_loop rest (acc ++ [x])
              (store mem x (set_confidence c (mem x))) w1
        end).
    { cbn [score_batch_in_place_loop]. unfold bind.
      now destruct (score_confidence (mem x) w) as [[e|c] w1]. }
    assert (Hvalue :
      score_batch_loop (objects mem (x :: rest)) acc_items w
      = match score_confidence (mem x) w with
        | (inl e, w1) => (inl e, w1)
        | (inr c, w1) =>
            score_batch_loop (map mem rest)
              (acc_items ++ [set_confidence c (mem x)]) w1
        end).
    { cbn [objects map score_batch_loop]. unfold bind.
      now destruct (score_confidence (mem x) w) as [[e|c] w1]. }
    rewrite Hplace, Hvalue. clear Hplace Hvalue.
    destruct (score_confidence (mem x) w) as [[e|c] w1].
    + exists mem, (inl e), w1. split; [reflexivity|].
      split; [reflexivity|]. right. exists e. now split.
    + set (mem1 := store mem x (set_confidence c (mem x))).
      destruct (IH (acc ++ [x]) (acc_items ++ [set_confidence c (mem x)])
                   mem1 w1) as (mem' & r & w' & Hrun & Hframe & Hres).
      assert (Hsame : map mem1 rest = map mem rest).
      { apply List.map_ext_in. intros b Hb. subst mem1. apply store_other.
        intros ->. contradiction. }
      unfold objects in Hres. rewrite Hsame in Hres.
      exists mem', r, w'. split; [exact Hrun|]. split.
      * intros a Hno. rewrite Hframe.
        -- subst mem1. apply store_other. intros ->. apply Hno. now left.
        -- intros Hin. apply Hno. now right.
      * destruct Hres as [[-> Hv]|(e & -> & Hv)].
        -- left. split; [now rewrite <- app_assoc|].
           rewrite Hv, <- app_assoc. unfold objects. cbn [app map].
           rewrite (Hframe x Hx). subst mem1. now rewrite store_same.
        -- right. exists e. now split.
Qed.

Lemma score_batch_by_value (items : list nat) (mem : Memory) (w : World) :
  List.NoDup items ->
  exists (mem' : Memory) (r : exn + list nat) (w' : World),
    score_batch_in_place mem items w = ((mem', r), w')
    /\ ((r = inr items
         /\ score_batch (objects mem items) w
            = (inr (objects mem' items), w'))
        \/ (exists e, r = inl e
                      /\ score_batch (objects mem items) w = (inl e, w'))).
Proof.
  intros Hnd.
  destruct (score_batch_loop_by_value items [] [] mem w Hnd)
    as (mem' & r & w' & Hrun & _ & Hres).
  exists mem', r, w'. split; [exact Hrun|]. exact Hres.
Qed.

(** C6.  When the service answers with text, [score_confidence] returns a
    confidence in the unit interval for every item whose confidence was in
    it: for a text that parses as a float, whatever its size, the parsed
    number brought into the interval (0.0 for a number below 0, 1.0 for a
    number above 1, the number itself inside), and the item's own
    confidence for a text that does not parse.  [score_batch] over objects
    with confidences in the interval, with a service that always answers
    with text, asks once for every entry of the list, in order, returns
    the list it was given, writes nothing but confidences and nothing
    outside the list, and leaves every listed object with a confidence in
    the interval; an object that is listed once is left with the
    confidence its own response gives it, in the sense above. *)
Theorem C6_confidence_bounds (item : ActionItem) (mem : Memory)
    (items : list nat) (w : World) (text : string) :
  (in_unit_interval (confidence item) = true ->
   answer w (confidence_prompt item) = Content text ->
   exists c : float,
     (score_confidence item w).1 = inr c
     /\ in_unit_interval c = true
     /\ (forall score, float_of_str (PyStr.strip text) = Some score ->
           clamped score c)
     /\ (float_of_str (PyStr.strip text) = None -> c = confidence item))
  /\ ((forall w' p, exists text', answer w' p = Content text') ->
      (forall a, In a items -> in_unit_interval (confidence (mem a)) = true) ->
      exists mem' : Memory,
        score_batch_in_place mem items w
        = ((mem', inr items),
           w ++ map (fun b => confidence_prompt (mem b)) items)
        /\ (forall a, In a items ->
                      in_unit_interval (confidence (mem' a)) = true)
        /\ (forall a, mem' a = set_confidence (confidence (mem' a)) (mem a))
        /\ (forall a, ~ In a items -> mem' a = mem a)
        /\ (forall (k a : nat) (reply : string),
              listed a items = 1%nat ->
              items !! k = Some a ->
              answer (w ++ map (fun b => confidence_prompt (mem b))
                               (take k items))
                     (confidence_prompt (mem a)) = Content reply ->
              (forall score,
                 float_of_str (PyStr.strip reply) = Some score ->
                 clamped score (confidence (mem' a)))
              /\ (float_of_str (PyStr.strip reply) = None ->
                  confidence (mem' a) = confidence (mem a)))).
Proof.
  split.
  - intros Hin Ha.
    destruct (score_confidence_rescored item w text Hin Ha)
      as (c & Hc & Hb & Hr).
    exists c. rewrite Hc. split; [reflexivity|]. split; [exact Hb|]. exact Hr.
  - intros Htext Hitems.
    destruct (score_batch_in_place_loop_spec items [] mem w Htext Hitems)
      as (mem' & Hrun & Hb & Hsame & Hframe & Hrel).
    exists mem'. split; [exact Hrun|]. split; [exact Hb|].
    split; [exact Hsame|]. split; [exact Hframe|].
    intros k a reply Hone Hk Hans. exact (Hrel k a reply Hone Hk Hans).
Qed.

End ConfidenceChainFacts.

Lemma C6_confidence_bounds_witness :
  let rt := fixture_runtime [("1.5", PyFloat.f1_5)] [] in
  let llm := scripted [Content " 1.5 "; Content "fairly sure"]
                      (Content "n/a") in
  let item := mkActionItem "Send the report to finance" "Dana"
                           (Some "Friday") PyFloat.half None None None in
  let mem : Memory := fun _ => item in
  (exists c : float,
     (@score_confidence rt llm item []).1 = inr c
     /\ in_unit_interval c = true
     /\ clamped PyFloat.f1_5 c)
  /\ (exists mem' : Memory,
        (@score_batch_in_place rt llm mem [0; 1]%nat []).1
        = (mem', inr [0; 1]%nat)
        /\ clamped PyFloat.f1_5 (confidence (mem' 0%nat))
        /\ confidence (mem' 1%nat) = PyFloat.half).
Proof.
  intros rt llm item mem.
  destruct (@C6_confidence_bounds rt llm item mem [0; 1]%nat [] " 1.5 ")
    as [Hone Hbatch].
  split.
  - destruct (Hone eq_refl eq_refl) as (c & Hc & Hb & Hs & _).
    exists c. split; [exact Hc|]. split; [exact Hb|]. exact (Hs _ eq_refl).
  - destruct Hbatch as (mem' & Hrun & _ & _ & _ & Hrel).
    + intros w' p. simpl. generalize (length w').
      intros [|[|[|n]]]; simpl; eexists; reflexivity.
    + intros a _. reflexivity.
    + exists mem'. split; [now rewrite Hrun|]. split.
      * exact (proj1 (Hrel 0%nat 0%nat " 1.5 " eq_refl eq_refl eq_refl)
                     _ eq_refl).
      * exact (proj2 (Hrel 1%nat 1%nat "fairly sure" eq_refl eq_refl eq_refl)
                     eq_refl).
Defined.

(** A number above 1 comes back as 1.0, one below 0 as 0.0, and one inside
    the interval as it is. *)
Example clamp_ex :
  clamp PyFloat.f1_5 = PyFloat.one
  /\ clamp (S754_finite true 4503599627370496 (-52)) = PyFloat.zero
  /\ clamp PyFloat.f0_4 = PyFloat.f0_4.
Proof. repeat split. Qed.

(** ** map_chain.py *)

Example located_none : located bracket_open bracket_close "no items here" = false.
Proof. reflexivity. Qed.

Example located_reversed : located bracket_open bracket_close "] then [" = false.
Proof. reflexivity. Qed.

Example located_array :
  located bracket_open bracket_close "Items: [1, 2] as asked" = true
  /\ json_str bracket_open bracket_close "Items: [1, 2] as asked" = "[1, 2]".
Proof. split; reflexivity. Qed.

Section Located.
Variables o c : ascii.
Hypothesis o_c : o <> c.

Lemma find_lower_bound (s : string) : -1 <= PyStr.find o s.
Proof.
  induction s as [|d s IH]; simpl; [lia|].
  destruct (Ascii.eqb d o); [lia|].
  destruct (Z.eqb_spec (PyStr.find o s) (-1)); lia.
Qed.

Lemma rfind_lower_bound (s : string) : -1 <= PyStr.rfind c s.
Proof.
  induction s as [|d s IH]; simpl; [lia|].
  destruct (Z.eqb_spec (PyStr.rfind c s) (-1)); [|lia].
  destruct (Ascii.eqb d c); lia.
Qed.

Lemma rfind_none (s : string) :
  PyStr.rfind c s = -1 <-> PyStr.has_char c s = false.
Proof.
  induction s as [|d s IH]; simpl; [tauto|].
  pose proof (rfind_lower_bound s) as Hlow.
  destruct (Z.eqb_spec (PyStr.rfind c s) (-1)) as [Hr|Hr].
  - apply IH in Hr. rewrite Hr, orb_false_r.
    destruct (Ascii.eqb d c); split; intros; (lia || congruence).
  - assert (Hin : PyStr.has_char c s = true).
    { destruct (PyStr.has_char c s); [reflexivity|]. tauto. }
    rewrite Hin, orb_true_r. split; intros; (lia || congruence).
Qed.

(** The test of the source, read along the text: the first [o] must be
    followed by some [c]. *)
Lemma located_cons (d : ascii) (s : string) :
  located o c (String d s)
  = if Ascii.eqb d o then PyStr.has_char c s else located o c s.
Proof.
  unfold located. simpl.
  pose proof (find_lower_bound s) as HF.
  pose proof (rfind_lower_bound s) as HR.
  pose proof (rfind_none s) as Hnone.
  destruct (Ascii.eqb_spec d o) as [Hd|Hd].
  - assert (Hdc : Ascii.eqb d c = false).
    { apply Ascii.eqb_neq. congruence. }
    rewrite Hdc. simpl.
    destruct (Z.eqb_spec (PyStr.rfind c s) (-1)) as [Hr|Hr].
    + apply Hnone in Hr. now rewrite Hr.
    + destruct (PyStr.has_char c s); [|tauto].
      apply Z.gtb_lt. lia.
  - destruct (Z.eqb_spec (PyStr.find o s) (-1)) as [Hf|Hf]; simpl.
    + reflexivity.
    + destruct (Z.eqb_spec (PyStr.find o s + 1) (-1)); [lia|]. simpl.
      destruct (Z.eqb_spec (PyStr.rfind c s) (-1)) as [Hr|Hr].
      * rewrite Hr. simpl.
        destruct (Ascii.eqb d c); simpl;
          destruct (Z.gtb_spec (0 + 1) (PyStr.find o s + 1));
          destruct (Z.gtb_spec 1 (PyStr.find o s + 1));
          destruct (Z.gtb_spec (-1 + 1) (PyStr.find o s + 1));
          destruct (Z.gtb_spec 0 (PyStr.find o s)); (reflexivity || lia).
      * destruct (Z.gtb_spec (PyStr.rfind c s + 1 + 1) (PyStr.find o s + 1));
          destruct (Z.gtb_spec (PyStr.rfind c s + 1) (PyStr.find o s));
          (reflexivity || lia).
Qed.

Lemma has_char_split (s : string) :
  PyStr.has_char c s = true ->
  exists between after, s = between +:+ String c after.
Proof.
  induction s as [|d s IH]; simpl; [discriminate|].
  destruct (Ascii.eqb_spec d c) as [->|Hd]; simpl.
  - intros _. exists EmptyString, s. reflexivity.
  - intros Hin. destruct (IH Hin) as (b & a & ->).
    exists (String d b), a. reflexivity.
Qed.

Lemma has_char_middle (between after : string) :
  PyStr.has_char c (between +:+ String c after) = true.
Proof.
  induction between as [|d b IH]; simpl.
  - now rewrite Ascii.eqb_refl.
  - rewrite IH. apply orb_true_r.
Qed.

Lemma has_char_append_r (x y : string) :
  PyStr.has_char c y = true -> PyStr.has_char c (x +:+ y) = true.
Proof.
  intros Hy. induction x as [|d x IH]; simpl; [assumption|].
  rewrite IH. apply orb_true_r.
Qed.

(** [located] holds exactly of the texts with an opening delimiter and a
    closing one after it. *)
Lemma located_spec (text : string) :
  located o c text = true <-> has_pair o c text.
Proof.
  induction text as [|d s IH].
  - split; [discriminate|]. intros (a & b & e & Heq).
    destruct a; discriminate.
  - rewrite located_cons. destruct (Ascii.eqb_spec d o) as [->|Hd].
    + split.
      * intros Hin. destruct (has_char_split s Hin) as (b & e & ->).
        exists EmptyString, b, e. reflexivity.
      * intros (a & b & e & Heq). destruct a as [|x a]; simpl in Heq.
        -- injection Heq as ->. apply has_char_middle.
        -- injection Heq as _ ->. apply has_char_append_r. simpl.
           rewrite has_char_middle. apply orb_true_r.
    + rewrite IH. split.
      * intros (a & b & e & ->). exists (String d a), b, e. reflexivity.
      * intros (a & b & e & Heq). destruct a as [|x a]; simpl in Heq.
        -- injection Heq as Hdo _. contradiction.
        -- injection Heq as _ ->. exists a, b, e. reflexivity.
Qed.

End Located.

Section ChainFacts.
Context `{PyRuntime} `{Collaborator}.

Lemma map_items_stamped_from (elems : list json) (chunk_index : Z)
    (acc : list ActionItem) :
  Forall (fun item => source_chunk item = Some chunk_index) acc ->
  Forall (fun item => source_chunk item = Some chunk_index)
    (fold_left (fun items item_data =>
                  match ActionItem_of item_data with
                  | inr item =>
                      items ++ [set_source_chunk (Some chunk_index) item]
                  | inl _ => items
                  end) elems acc).
Proof.
  revert acc. induction elems as [|e elems IH]; intros acc Hacc; simpl.
  - assumption.
  - apply IH. destruct (ActionItem_of e) as [err|item]; [assumption|].
    apply Forall_app. split; [assumption|]. now constructor.
Qed.

Lemma parse_map_response_stamped (text : string) (chunk_index total : Z) :
  Forall (fun item => source_chunk item = Some chunk_index)
         (mp_items (parse_map_response text chunk_index total)).
Proof.
  unfold parse_map_response.
  destruct (if located bracket_open bracket_close text
            then json_loads (json_str bracket_open bracket_close text)
            else inr (JArray [])) as [msg|items_data]; simpl.
  - constructor.
  - destruct (iterate items_data) as [e|elems]; simpl; [constructor|].
    apply map_items_stamped_from. constructor.
Qed.

Lemma extract_content (self : MapChain) (chunk_text : string)
    (chunk_index total : Z) (w : World) (user_prompt text : string) :
  str_format (user_prompt_template self) "transcript_chunk" chunk_text
  = inr user_prompt ->
  answer w (full_prompt self user_prompt) = Content text ->
  extract self chunk_text chunk_index total w
  = (parse_map_response text chunk_index total,
     w ++ [full_prompt self user_prompt]).
Proof.
  intros Hf Ha. unfold extract. rewrite Hf. unfold bind, invoke.
  now rewrite Ha.
Qed.

Lemma extract_chunk_index (self : MapChain) (chunk_text : string)
    (chunk_index total_chunks : Z) (w : World) :
  mp_chunk_index (extract self chunk_text chunk_index total_chunks w).1
  = chunk_index.
Proof.
  unfold extract.
  destruct (str_format (user_prompt_template self) "transcript_chunk"
                       chunk_text) as [e|user_prompt]; simpl;
    [reflexivity|].
  unfold bind, invoke.
  destruct (answer w (full_prompt self user_prompt)) as [e|text]; simpl;
    [reflexivity|].
  unfold parse_map_response.
  destruct (if located bracket_open bracket_close text
            then json_loads (json_str bracket_open bracket_close text)
            else inr (JArray [])) as [msg|items_data]; simpl;
    [reflexivity|].
  now destruct (iterate items_data).
Qed.

(** C9.  Every item [extract] returns carries the chunk index it was
    called with as its [source_chunk], whatever the element of the
    response held in that field; the output's own [chunk_index] is the
    argument too. *)
Theorem C9_source_chunk_stamped (self : MapChain) (chunk_text : string)
    (chunk_index total_chunks : Z) (w : World) :
  Forall (fun item => source_chunk item = Some chunk_index)
         (mp_items (extract self chunk_text chunk_index total_chunks w).1)
  /\ mp_chunk_index (extract self chunk_text chunk_index total_chunks w).1
     = chunk_index.
Proof.
  split; [|apply extract_chunk_index].
  unfold extract.
  destruct (str_format (user_prompt_template self) "transcript_chunk"
                       chunk_text) as [e|user_prompt]; simpl;
    [constructor|].
  unfold bind, invoke.
  destruct (answer w (full_prompt self user_prompt)) as [e|text]; simpl;
    [constructor|].
  apply parse_map_response_stamped.
Qed.

(** C3, as the code has it.  When the prompt is built: a response with no
    opening bracket followed by a closing one gives an output with no items
    and with no error (the field stays [None]); a response with such a pair
    whose text [json.loads] refuses gives no items and the error
    "JSON parsing failed: ..."; a call that raises gives no items and the
    exception's text as the error. *)
Theorem C3_extract_failures (self : MapChain) (chunk_text : string)
    (chunk_index total_chunks : Z) (w : World) (user_prompt : string) :
  str_format (user_prompt_template self) "transcript_chunk" chunk_text
  = inr user_prompt ->
  let output := (extract self chunk_text chunk_index total_chunks w).1 in
  (forall text,
     answer w (full_prompt self user_prompt) = Content text ->
     ~ has_pair bracket_open bracket_close text ->
     output = mkMapPhaseOutput [] chunk_index total_chunks None)
  /\ (forall text msg,
        answer w (full_prompt self user_prompt) = Content text ->
        has_pair bracket_open bracket_close text ->
        json_loads (json_str bracket_open bracket_close text) = inl msg ->
        output = mkMapPhaseOutput [] chunk_index total_chunks
                   (Some ("JSON parsing failed: " +:+ msg)))
  /\ (forall e,
        answer w (full_prompt self user_prompt) = Raised e ->
        output = mkMapPhaseOutput [] chunk_index total_chunks
                   (Some (str_of_exn e))).
Proof.
  intros Hf output. subst output.
  assert (Hbr : bracket_open <> bracket_close) by discriminate.
  repeat split.
  - intros text Ha Hpair. rewrite (extract_content _ _ _ _ _ _ _ Hf Ha).
    simpl. unfold parse_map_response.
    destruct (located bracket_open bracket_close text) eqn:Hloc;
      [|reflexivity].
    now apply (located_spec _ _ Hbr) in Hloc.
  - intros text msg Ha Hpair Hj.
    rewrite (extract_content _ _ _ _ _ _ _ Hf Ha).
    apply (located_spec _ _ Hbr) in Hpair.
    simpl. unfold parse_map_response. now rewrite Hpair, Hj.
  - intros e Ha. unfold extract. rewrite Hf. unfold bind, invoke.
    now rewrite Ha.
Qed.

Lemma extract_batch_loop_indices (self : MapChain) (chunks : list string)
    (i n : Z) (w : World) :
  map mp_chunk_index (extract_batch_loop self chunks i n w).1
  = map (fun k => i + Z.of_nat k) (seq 0 (length chunks)).
Proof.
  revert i w. induction chunks as [|chunk rest IH]; intros i w;
    [reflexivity|].
  cbn [extract_batch_loop]. unfold bind at 1.
  pose proof (extract_chunk_index self chunk i n w) as Hidx.
  destruct (extract self chunk i n w) as [result w1]. unfold bind.
  specialize (IH (i + 1) w1).
  destruct (extract_batch_loop self rest (i + 1) n w1) as [results w2].
  simpl in *. rewrite Hidx, IH, Z.add_0_r. f_equal.
  rewrite <- seq_shift, map_map. apply map_ext. intros k. lia.
Qed.

(** [extract_batch] gives one output for each chunk, in the order of the
    chunks, the [k]-th with chunk index [k]. *)
Lemma extract_batch_indices (self : MapChain) (chunks : list string)
    (w : World) :
  map mp_chunk_index (extract_batch self chunks w).1
  = map Z.of_nat (seq 0 (length chunks)).
Proof. unfold extract_batch. now rewrite extract_batch_loop_indices. Qed.

End ChainFacts.

Lemma C3_extract_failures_witness :
  let rt := fixture_runtime []
              [("[task: call Bob]",
                inl "Expecting value: line 1 column 2 (char 1)")] in
  let silent := scripted [Content "There is nothing to do here."]
                         (Raised (OtherError "connection refused")) in
  let broken := scripted [Content "[task: call Bob]"]
                         (Raised (OtherError "connection refused")) in
  let down := scripted [] (Raised (OtherError "connection refused")) in
  (@extract rt silent demo_map_chain "Bob: hello" 0 1 []).1
  = mkMapPhaseOutput [] 0 1 None
  /\ (@extract rt broken demo_map_chain "Bob: hello" 0 1 []).1
     = mkMapPhaseOutput [] 0 1
         (Some "JSON parsing failed: Expecting value: line 1 column 2 (char 1)")
  /\ (@extract rt down demo_map_chain "Bob: hello" 0 1 []).1
     = mkMapPhaseOutput [] 0 1 (Some "connection refused").
Proof.
  intros rt silent broken down. split; [|split].
  - destruct (@C3_extract_failures rt silent demo_map_chain "Bob: hello"
                0 1 [] "Transcript: Bob: hello" eq_refl) as (Hnone & _ & _).
    apply (Hnone "There is nothing to do here."); [reflexivity|].
    intros Hpair. apply located_spec in Hpair; discriminate.
  - destruct (@C3_extract_failures rt broken demo_map_chain "Bob: hello"
                0 1 [] "Transcript: Bob: hello" eq_refl) as (_ & Hbad & _).
    apply (Hbad "[task: call Bob]"); try reflexivity.
    apply located_spec; [discriminate | reflexivity].
  - destruct (@C3_extract_failures rt down demo_map_chain "Bob: hello"
                0 1 [] "Transcript: Bob: hello" eq_refl) as (_ & _ & Hraise).
    apply (Hraise (OtherError "connection refused")); reflexivity.
Defined.

(** C3 fails as stated: for a response without any array the output has
    no items, and its error field is not populated. *)
Lemma C3_counterexample :
  let rt := fixture_runtime [] [] in
  let llm := scripted [Content "There is nothing to do here."]
                      (Raised (OtherError "connection refused")) in
  let output := (@extract rt llm demo_map_chain "Bob: hello" 0 1 []).1 in
  ~ has_pair bracket_open bracket_close "There is nothing to do here."
  /\ mp_items output = []
  /\ mp_error output = None.
Proof.
  repeat split. intros Hpair. apply located_spec in Hpair; discriminate.
Qed.

Example extract_overwrites_source_chunk :
  let rt := fixture_runtime [] [(demo_array_text, inr demo_array_value)] in
  let llm := scripted [Content ("Here you are: " +:+ demo_array_text)]
                      (Raised (OtherError "connection refused")) in
  (@extract rt llm demo_map_chain "Ann: call Bob" 3 5 []).1
  = mkMapPhaseOutput [call_bob] 3 5 None.
Proof. reflexivity. Qed.

(** ** reduce_chain.py *)

Section ReduceFacts.
Context `{PyRuntime} `{Collaborator}.

Lemma consolidate_content (self : ReduceChain) (item : ActionItem)
    (rest : list ActionItem) (w : World) (user_prompt text : string) :
  str_format (user_prompt_template self) "items_json"
             (json_dumps_items (item :: rest)) = inr user_prompt ->
  answer w (full_prompt self user_prompt) = Content text ->
  consolidate self (item :: rest) w
  = (parse_reduce_response (item :: rest) text,
     w ++ [full_prompt self user_prompt]).
Proof.
  intros Hf Ha. unfold consolidate. rewrite Hf. unfold bind, invoke.
  now rewrite Ha.
Qed.

(** The fallback of [consolidate] that works: a located object that
    [json.loads] refuses gives back the items it was given, with zero
    counters and a note that records the failure. *)
Lemma consolidate_decode_error (self : ReduceChain) (item : ActionItem)
    (rest : list ActionItem) (w : World) (user_prompt text msg : string) :
  str_format (user_prompt_template self) "items_json"
             (json_dumps_items (item :: rest)) = inr user_prompt ->
  answer w (full_prompt self user_prompt) = Content text ->
  located brace_open brace_close text = true ->
  json_loads (json_str brace_open brace_close text) = inl msg ->
  (consolidate self (item :: rest) w).1
  = mkReducePhaseOutput (item :: rest) 0 0
      (Some [Lit ("Consolidation failed: " +:+ msg)]).
Proof.
  intros Hf Ha Hloc Hj. rewrite (consolidate_content _ _ _ _ _ _ Hf Ha).
  simpl. unfold parse_reduce_response. now rewrite Hloc, Hj.
Qed.

(** The case [consolidate] misses: a response in which no object is
    located gives an output without any item, and a note that reads as a
    success. *)
Lemma consolidate_unlocated (self : ReduceChain) (item : ActionItem)
    (rest : list ActionItem) (w : World) (user_prompt text : string) :
  str_format (user_prompt_template self) "items_json"
             (json_dumps_items (item :: rest)) = inr user_prompt ->
  answer w (full_prompt self user_prompt) = Content text ->
  located brace_open brace_close text = false ->
  (consolidate self (item :: rest) w).1
  = mkReducePhaseOutput [] 0 0
      (Some [Lit "Consolidated from ";
             IntHole (Z.of_nat (length (item :: rest))); Lit " items"]).
Proof.
  intros Hf Ha Hloc. rewrite (consolidate_content _ _ _ _ _ _ Hf Ha).
  cbn [fst]. unfold parse_reduce_response. now rewrite Hloc.
Qed.

(** A call that raises gives back the items too. *)
Lemma consolidate_raised (self : ReduceChain) (item : ActionItem)
    (rest : list ActionItem) (w : World) (user_prompt : string) (e : exn) :
  str_format (user_prompt_template self) "items_json"
             (json_dumps_items (item :: rest)) = inr user_prompt ->
  answer w (full_prompt self user_prompt) = Raised e ->
  (consolidate self (item :: rest) w).1
  = mkReducePhaseOutput (item :: rest) 0 0
      (Some [Lit ("Error: " +:+ str_of_exn e)]).
Proof.
  intros Hf Ha. unfold consolidate. rewrite Hf. unfold bind, invoke.
  now rewrite Ha.
Qed.

(** C7.  On the empty list [consolidate] returns no items and two zero
    counters, and the list of prompts sent to the service is the one it
    started with: no call is made. *)
Theorem C7_consolidate_empty (self : ReduceChain) (w : World) :
  consolidate self [] w = (mkReducePhaseOutput [] 0 0 None, w).
Proof. reflexivity. Qed.

End ReduceFacts.

(** C1 at a failing input.  The service answers the one item it is given
    with a sentence that holds no brace: [consolidate] returns no item at
    all, and its note reads "Consolidated from 1 items". *)
Theorem C1_unlocated_object_drops_items :
  let rt := fixture_runtime [] [] in
  let llm := scripted [Content "I could not merge anything."]
                      (Raised (OtherError "connection refused")) in
  let output := (@consolidate rt llm demo_reduce_chain [call_bob] []).1 in
  ~ has_pair brace_open brace_close "I could not merge anything."
  /\ output = mkReducePhaseOutput [] 0 0
               (Some [Lit "Consolidated from "; IntHole 1; Lit " items"])
  /\ rp_items output <> [call_bob].
Proof.
  split; [|split].
  - intros Hpair. apply located_spec in Hpair; discriminate.
  - reflexivity.
  - discriminate.
Qed.

Example consolidate_keeps_items_on_decode_error :
  let rt := fixture_runtime []
              [("{items: none}",
                inl "Expecting property name enclosed in double quotes: line 1 column 2 (char 1)")] in
  let llm := scripted [Content "{items: none}"]
                      (Raised (OtherError "connection refused")) in
  (@consolidate rt llm demo_reduce_chain [call_bob] []).1
  = mkReducePhaseOutput [call_bob] 0 0
      (Some [Lit "Consolidation failed: Expecting property name enclosed in double quotes: line 1 column 2 (char 1)"]).
Proof. reflexivity. Qed.

(** ** Strings: splitting and joining *)

Section SplitJoin.
Variable sep : ascii.

Lemma split_nonempty (s : string) : PyStr.split sep s <> [].
Proof.
  destruct s as [|c s]; simpl; [discriminate|].
  destruct (Ascii.eqb c sep); [discriminate|].
  destruct (PyStr.split sep s); discriminate.
Qed.

Lemma split_parts_free (s : string) :
  Forall (fun part => PyStr.has_char sep part = false) (PyStr.split sep s).
Proof.
  induction s as [|c s IH]; simpl.
  - repeat constructor.
  - destruct (Ascii.eqb c sep) eqn:Hc.
    + constructor; [reflexivity | assumption].
    + destruct (PyStr.split sep s) as [|part parts].
      * constructor; [simpl; now rewrite Hc | constructor].
      * inversion IH; subst. constructor; [|assumption].
        simpl. now rewrite Hc.
Qed.

Lemma split_free (s : string) :
  PyStr.has_char sep s = false -> PyStr.split sep s = [s].
Proof.
  induction s as [|c s IH]; simpl; [reflexivity|].
  intros Hfree. apply orb_false_iff in Hfree as [Hc Hs].
  now rewrite Hc, (IH Hs).
Qed.

Lemma split_append (s rest : string) :
  PyStr.has_char sep s = false ->
  PyStr.split sep (s +:+ String sep rest) = s :: PyStr.split sep rest.
Proof.
  induction s as [|c s IH]; simpl.
  - intros _. now rewrite Ascii.eqb_refl.
  - intros Hfree. apply orb_false_iff in Hfree as [Hc Hs].
    now rewrite Hc, (IH Hs).
Qed.

Lemma split_join (parts : list string) :
  parts <> [] ->
  Forall (fun part => PyStr.has_char sep part = false) parts ->
  PyStr.split sep (PyStr.join sep parts) = parts.
Proof.
  induction parts as [|part rest IH]; [congruence|].
  intros _ Hfree. inversion Hfree as [|? ? Hpart Hrest]; subst.
  destruct rest as [|next rest].
  - simpl. now apply split_free.
  - change (PyStr.join sep (part :: next :: rest))
      with (part +:+ String sep (PyStr.join sep (next :: rest))).
    rewrite (split_append _ _ Hpart). f_equal.
    apply IH; [discriminate | assumption].
Qed.

End SplitJoin.

Lemma has_char_append (c : ascii) (p q : string) :
  PyStr.has_char c (p +:+ q) = PyStr.has_char c p || PyStr.has_char c q.
Proof.
  induction p as [|d p IH]; simpl; [reflexivity|].
  now rewrite IH, orb_assoc.
Qed.

Lemma plain_not_space (c d : ascii) :
  plain c = true -> PyStr.is_space d = true -> Ascii.eqb d c = false.
Proof.
  intros Hc Hd. apply Ascii.eqb_neq. intros ->.
  unfold plain in Hc. apply andb_prop in Hc as [_ Hc].
  now rewrite Hd in Hc.
Qed.

Lemma plain_not_high (c d : ascii) :
  plain c = true -> (128 <= nat_of_ascii d)%nat -> Ascii.eqb d c = false.
Proof.
  intros Hc Hd. apply Ascii.eqb_neq. intros ->.
  unfold plain in Hc. apply andb_prop in Hc as [Hc _].
  apply Nat.ltb_lt in Hc. lia.
Qed.

Lemma is_space2_high (c1 c2 : ascii) :
  PyStr.is_space2 c1 c2 = true ->
  (128 <= nat_of_ascii c1)%nat /\ (128 <= nat_of_ascii c2)%nat.
Proof.
  unfold PyStr.is_space2. cbv zeta. intros H.
  apply andb_prop in H as [H1 H2]. apply Nat.eqb_eq in H1.
  apply orb_prop in H2 as [H2|H2]; apply Nat.eqb_eq in H2; lia.
Qed.

Lemma is_space3_high (c1 c2 c3 : ascii) :
  PyStr.is_space3 c1 c2 c3 = true ->
  (128 <= nat_of_ascii c1)%nat /\ (128 <= nat_of_ascii c2)%nat
  /\ (128 <= nat_of_ascii c3)%nat.
Proof.
  unfold PyStr.is_space3. cbv zeta. intros H.
  repeat match goal with
         | H : _ || _ = true |- _ => apply orb_prop in H as [H|H]
         | H : _ && _ = true |- _ =>
             let H1 := fresh in apply andb_prop in H as [H H1]
         | H : (_ =? _)%nat = true |- _ => apply Nat.eqb_eq in H
         | H : (_ <=? _)%nat = true |- _ => apply Nat.leb_le in H
         end; lia.
Qed.

(** What [lstrip] removes holds white space only, and no plain
    character. *)
Lemma lstrip_split (s : string) :
  exists removed,
    s = removed +:+ PyStr.lstrip s
    /\ forall c, plain c = true -> PyStr.has_char c removed = false.
Proof.
  assert (Hall : forall n s, (String.length s <= n)%nat ->
            exists removed,
              s = removed +:+ PyStr.lstrip s
              /\ forall c, plain c = true ->
                           PyStr.has_char c removed = false).
  { clear s. induction n as [|n IH]; intros s Hlen.
    - destruct s; [|simpl in Hlen; lia]. now exists EmptyString.
    - destruct s as [|c1 s1]; [now exists EmptyString|].
      cbn [String.length] in Hlen. cbn [PyStr.lstrip].
      destruct (PyStr.is_space c1) eqn:H1.
      { destruct (IH s1) as (r & Hr & Hp); [lia|].
        exists (String c1 r). split; [exact (f_equal (String c1) Hr)|].
        intros c Hc. simpl. now rewrite (plain_not_space c c1 Hc H1), Hp. }
      destruct s1 as [|c2 s2]; [now exists EmptyString|].
      cbn [String.length] in Hlen.
      destruct (PyStr.is_space2 c1 c2) eqn:H2.
      { destruct (IH s2) as (r & Hr & Hp); [lia|].
        destruct (is_space2_high _ _ H2) as [Hh1 Hh2].
        exists (String c1 (String c2 r)).
        split; [exact (f_equal (fun x => String c1 (String c2 x)) Hr)|].
        intros c Hc. simpl.
        now rewrite (plain_not_high c c1 Hc Hh1),
          (plain_not_high c c2 Hc Hh2), Hp. }
      destruct s2 as [|c3 s3]; [now exists EmptyString|].
      cbn [String.length] in Hlen.
      destruct (PyStr.is_space3 c1 c2 c3) eqn:H3; [|now exists EmptyString].
      destruct (IH s3) as (r & Hr & Hp); [lia|].
      destruct (is_space3_high _ _ _ H3) as (Hh1 & Hh2 & Hh3).
      exists (String c1 (String c2 (String c3 r))).
      split;
        [exact (f_equal (fun x => String c1 (String c2 (String c3 x))) Hr)|].
      intros c Hc. simpl.
      now rewrite (plain_not_high c c1 Hc Hh1), (plain_not_high c c2 Hc Hh2),
        (plain_not_high c c3 Hc Hh3), Hp. }
  now apply (Hall (String.length s)).
Qed.

(** [rstrip] keeps a beginning of the text. *)
Lemma rstrip_split (s : string) :
  exists removed, s = PyStr.rstrip s +:+ removed.
Proof.
  induction s as [|c s IH]; [now exists EmptyString|].
  cbn [PyStr.rstrip]. destruct (PyStr.all_space (String c s)).
  - now exists (String c s).
  - destruct IH as [r Hr]. exists r. exact (f_equal (String c) Hr).
Qed.

Section CharFree.
Variable c : ascii.

Lemma lstrip_free (s : string) :
  PyStr.has_char c s = false -> PyStr.has_char c (PyStr.lstrip s) = false.
Proof.
  intros Hfree. destruct (lstrip_split s) as (r & Hr & _).
  rewrite Hr, has_char_append in Hfree.
  now apply orb_false_iff in Hfree.
Qed.

Lemma rstrip_free (s : string) :
  PyStr.has_char c s = false -> PyStr.has_char c (PyStr.rstrip s) = false.
Proof.
  intros Hfree. destruct (rstrip_split s) as (r & Hr).
  rewrite Hr, has_char_append in Hfree.
  now apply orb_false_iff in Hfree.
Qed.

Lemma strip_free (s : string) :
  PyStr.has_char c s = false -> PyStr.has_char c (PyStr.strip s) = false.
Proof. intros Hfree. unfold PyStr.strip. now apply rstrip_free, lstrip_free. Qed.

Lemma split_once_free (d : ascii) (s before after : string) :
  PyStr.has_char c s = false ->
  PyStr.split_once d s = Some (before, after) ->
  PyStr.has_char c before = false /\ PyStr.has_char c after = false.
Proof.
  revert before. induction s as [|e s IH]; simpl; intros before Hfree Hsplit;
    [discriminate|].
  apply orb_false_iff in Hfree as [He Hs].
  destruct (Ascii.eqb e d).
  - injection Hsplit as <- <-. now split.
  - destruct (PyStr.split_once d s) as [[a b]|] eqn:Hrec; [|discriminate].
    injection Hsplit as <- <-.
    destruct (IH a Hs eq_refl) as [Ha Hb]. split; [|assumption].
    simpl. now rewrite He.
Qed.

Lemma split_once_none (s : string) :
  PyStr.has_char c s = false -> PyStr.split_once c s = None.
Proof.
  induction s as [|e s IH]; simpl; [reflexivity|].
  intros Hfree. apply orb_false_iff in Hfree as [He Hs].
  now rewrite He, (IH Hs).
Qed.

End CharFree.

Lemma line_content_free (c : ascii) (line : string) :
  PyStr.has_char c line = false -> PyStr.has_char c (line_content line) = false.
Proof.
  intros Hfree. unfold line_content.
  destruct (PyStr.split_once PyStr.colon line) as [[before after]|] eqn:Hs;
    [|assumption].
  apply strip_free. now apply (split_once_free c _ _ _ _ Hfree Hs).
Qed.

(** ** document_loader.py *)

Lemma page_content_line_document (source : string)
    (extra : option (gmap string pyval)) (i : Z) (line : string) :
  page_content (line_document source extra i line) = line_content line.
Proof.
  unfold line_document, line_content.
  now destruct (PyStr.split_once PyStr.colon line) as [[before after]|].
Qed.

Lemma ingest_lines_contents (source : string)
    (extra : option (gmap string pyval)) (i : Z) (lines : list string) :
  map page_content (ingest_lines source extra i lines)
  = map line_content (List.filter nonblank lines).
Proof.
  revert i. induction lines as [|line rest IH]; intros i; simpl;
    [reflexivity|].
  unfold nonblank at 1. destruct (PyStr.truthy (PyStr.strip line)); simpl.
  - now rewrite page_content_line_document, IH.
  - apply IH.
Qed.

Lemma ingest_contents (text source : string)
    (extra : option (gmap string pyval)) :
  map page_content (ingest text source extra)
  = map line_content (transcript_lines text).
Proof. apply ingest_lines_contents. Qed.

Lemma transcript_lines_one_line (text : string) :
  Forall one_line (transcript_lines text).
Proof.
  unfold transcript_lines.
  pose proof (split_parts_free PyStr.nl (PyStr.strip text)) as Hparts.
  induction Hparts as [|part parts Hpart _ IH]; simpl; [constructor|].
  destruct (nonblank part); [constructor|]; assumption.
Qed.

Lemma ingest_one_line (text source : string)
    (extra : option (gmap string pyval)) :
  Forall one_line (map page_content (ingest text source extra)).
Proof.
  rewrite ingest_contents. apply Forall_map.
  eapply Forall_impl; [apply transcript_lines_one_line|].
  intros line Hline. now apply line_content_free.
Qed.



(** *** Speaker turns *)

Lemma speaker_chunk_lines (i : Z) (sp : pyval) (content : list string)
    (doc : Document) :
  content <> [] -> Forall one_line content ->
  PyStr.split PyStr.nl (page_content (speaker_chunk i sp content doc))
  = content.
Proof. intros Hne Hfree. simpl. now apply split_join. Qed.






(** *** Batches of lines *)

Lemma range_from_done (fuel start stop step : nat) :
  (stop <= start)%nat -> range_from fuel start stop step = [].
Proof.
  intros Hge. destruct fuel; simpl; [reflexivity|].
  destruct (Nat.ltb_spec start stop); [lia | reflexivity].
Qed.




(** *** The whole chunker *)




(** White space as Python counts it: a line of one EM SPACE (bytes E2 80
    83) is blank and is skipped, a NO-BREAK SPACE (bytes C2 A0) after the
    colon is stripped, and the transcript is stripped before it is split
    into lines. *)
Example unicode_white_space_lines :
  let em := String (ascii_of_nat 226)
              (String (ascii_of_nat 128) (String (ascii_of_nat 131) EmptyString)) in
  let nbsp := String (ascii_of_nat 194) (String (ascii_of_nat 160) EmptyString) in
  let text := "Ann: hi" +:+ String PyStr.nl (em +:+ String PyStr.nl "Bob: yo") in
  transcript_lines text = ["Ann: hi"; "Bob: yo"]
  /\ (exists c1 c2 : Document,
        process (mkDocumentLoader "speaker_turns") text "notes.txt" None
        = inr [c1; c2]
        /\ page_content c1 = "hi" /\ page_content c2 = "yo")
  /\ process (mkDocumentLoader "speaker_turns") em "notes.txt" None = inr []
  /\ line_content ("Ann:" +:+ nbsp +:+ "hi") = "hi"
  /\ transcript_lines ("  hello  " +:+ String PyStr.nl "world ")
     = ["hello  "; "world"].
Proof.
  split; [reflexivity|]. split; [|repeat split].
  eexists _, _. split; [vm_compute; reflexivity|]. split; reflexivity.
Qed.

(* ================================================================== *)
(** * Further properties of the code *)
(* ================================================================== *)

(** ** Strings *)

Lemma prefix_append (n rest : string) : String.prefix n (n +:+ rest) = true.
Proof.
  induction n as [|c n IH]; simpl; [now destruct rest|].
  destruct (ascii_dec c c); [assumption | congruence].
Qed.

Lemma contains_of_prefix (n s : string) :
  String.prefix n s = true -> PyStr.contains n s = true.
Proof. intros Hp. destruct s; cbn [PyStr.contains]; now rewrite Hp. Qed.

Lemma contains_middle (n before after : string) :
  PyStr.contains n (before +:+ n +:+ after) = true.
Proof.
  induction before as [|c before IH].
  - apply contains_of_prefix. exact (prefix_append n after).
  - change (String c before +:+ n +:+ after)
      with (String c (before +:+ n +:+ after)).
    cbn [PyStr.contains]. rewrite IH. apply orb_true_r.
Qed.

Lemma lower_append (a b : string) :
  PyStr.lower (a +:+ b) = PyStr.lower a +:+ PyStr.lower b.
Proof. induction a as [|c a IH]; simpl; [reflexivity | now rewrite IH]. Qed.

Lemma prefix_head (c : ascii) (n s : string) :
  String.prefix (String c n) s = true -> PyStr.has_char c s = true.
Proof.
  destruct s as [|d s]; simpl; [discriminate|].
  destruct (ascii_dec c d) as [->|]; [|discriminate].
  intros _. now rewrite Ascii.eqb_refl.
Qed.

Lemma contains_head (c : ascii) (n s : string) :
  PyStr.contains (String c n) s = true -> PyStr.has_char c s = true.
Proof.
  induction s as [|d s IH].
  - simpl. discriminate.
  - cbn [PyStr.contains]. intros Hc. apply orb_true_iff in Hc as [Hp|Hs].
    + now apply prefix_head in Hp.
    + simpl. rewrite (IH Hs). apply orb_true_r.
Qed.

Lemma lstrip_keeps (c : ascii) (s : string) :
  plain c = true -> PyStr.has_char c s = true ->
  PyStr.has_char c (PyStr.lstrip s) = true.
Proof.
  intros Hc Hin. destruct (lstrip_split s) as (r & Hr & Hp).
  rewrite Hr, has_char_append, (Hp c Hc) in Hin. exact Hin.
Qed.

Lemma rstrip_keeps (c : ascii) (s : string) :
  plain c = true -> PyStr.has_char c s = true ->
  PyStr.has_char c (PyStr.rstrip s) = true.
Proof.
  intros Hc. induction s as [|d s IH]; [discriminate|].
  intros Hin. cbn [PyStr.rstrip]. unfold PyStr.all_space.
  pose proof (lstrip_keeps c _ Hc Hin) as Hk.
  destruct (PyStr.lstrip (String d s)) as [|e r]; [discriminate|].
  simpl in Hin |- *. apply orb_true_iff in Hin as [Heq|Hs].
  - now rewrite Heq.
  - rewrite (IH Hs). apply orb_true_r.
Qed.

(** A text with a plain character is not blank. *)
Lemma not_blank (c : ascii) (s : string) :
  plain c = true -> PyStr.has_char c s = true -> blank s = false.
Proof.
  intros Hc Hin. unfold blank.
  pose proof (rstrip_keeps c _ Hc (lstrip_keeps c s Hc Hin)) as Hk.
  fold (PyStr.strip s) in Hk.
  destruct s as [|d s]; [discriminate|]. simpl negb.
  destruct (PyStr.strip (String d s)); [discriminate | reflexivity].
Qed.

(** ** validation.py *)

(** X1.  [validate_item] never accepts a task in which one of the vague
    terms occurs, in whatever capitalisation and wherever it stands, also
    inside a longer word. *)
Theorem X1_vague_term_anywhere (self : ValidationLayer) (item : ActionItem)
    (before word after : string) :
  task item = before +:+ word +:+ after ->
  In (PyStr.lower word) vague_terms ->
  (validate_item self item).1 = false.
Proof.
  intros Htask Hword. unfold validate_item.
  destruct (PyFloat.lt (confidence item) (confidence_threshold self));
    [reflexivity|].
  destruct (negb (PyStr.truthy (task item))
            || negb (PyStr.truthy (PyStr.strip (task item))));
    [reflexivity|].
  cbv zeta.
  assert (Hv : existsb (fun term => PyStr.contains term
                                      (PyStr.lower (task item)))
                       vague_terms = true).
  { apply existsb_exists. exists (PyStr.lower word). split; [assumption|].
    rewrite Htask, !lower_append. apply contains_middle. }
  now rewrite Hv.
Qed.

Lemma X1_vague_term_anywhere_witness :
  (validate_item (mkValidationLayer PyFloat.f0_4)
     (mkActionItem "Finalize EVERYTHING for launch" "Dana" None
                   PyFloat.f0_9 None None None)).1 = false.
Proof.
  apply (X1_vague_term_anywhere _ _ "Finalize EVERY" "THING" " for launch");
    [reflexivity | simpl; tauto].
Defined.

Lemma filter_filter_same {A : Type} (p : A -> bool) (l : list A) :
  List.filter p (List.filter p l) = List.filter p l.
Proof.
  induction l as [|x l IH]; simpl; [reflexivity|].
  destruct (p x) eqn:Hx; simpl; [rewrite Hx; f_equal|]; assumption.
Qed.

Lemma filter_filter_none {A : Type} (p q : A -> bool) (l : list A) :
  (forall x, p x = true -> q x = false) ->
  List.filter q (List.filter p l) = [].
Proof.
  intros Hpq. induction l as [|x l IH]; simpl; [reflexivity|].
  destruct (p x) eqn:Hx; simpl; [rewrite (Hpq x Hx)|]; assumption.
Qed.

(** X3.  Validating again what [validate_batch] returned changes nothing:
    the accepted items are all accepted once more, and the rejected ones
    all rejected. *)
Theorem X3_validate_batch_stable (self : ValidationLayer)
    (items : list ActionItem) :
  validate_batch self (validate_batch self items).1
  = ((validate_batch self items).1, [])
  /\ validate_batch self (validate_batch self items).2
     = ([], (validate_batch self items).2).
Proof.
  rewrite !validate_batch_filter. cbn [fst snd]. split; f_equal.
  - apply filter_filter_same.
  - apply filter_filter_none. intros x Hx. now rewrite Hx.
  - apply filter_filter_none. intros x Hx. now apply negb_true_iff in Hx.
  - apply filter_filter_same.
Qed.

Lemma handle_missing_fields_eq (item : ActionItem) :
  handle_missing_fields item
  = mkActionItem (task item) (backfilled_owner (owner item))
                 (Some (backfilled_deadline (deadline item)))
                 (confidence item) (source_chunk item) (speaker item)
                 (if PyStr.truthy_opt (notes item) then notes item else None).
Proof.
  destruct item as [t o d c sc sp n].
  unfold handle_missing_fields, backfilled_owner, backfilled_deadline, blank.
  cbn [owner task confidence source_chunk speaker].
  destruct (negb (PyStr.truthy o) || String.eqb (PyStr.strip o) EmptyString);
    cbn [deadline set_owner];
    (destruct d as [d|];
     [destruct (negb (PyStr.truthy d)
                || String.eqb (PyStr.strip d) EmptyString)|]);
    cbn [notes set_deadline set_owner];
    destruct n as [[|x n]|]; reflexivity.
Qed.

Lemma backfilled_owner_not_blank (o : string) :
  blank (backfilled_owner o) = false.
Proof.
  unfold backfilled_owner. destruct (blank o) eqn:Ho; [reflexivity | exact Ho].
Qed.

Lemma backfilled_deadline_not_blank (d : option string) :
  blank (backfilled_deadline d) = false.
Proof.
  unfold backfilled_deadline. destruct d as [d|]; [|reflexivity].
  destruct (blank d) eqn:Hd; [reflexivity | exact Hd].
Qed.

(** X4.  After [handle_missing_fields] the owner is never blank, a deadline
    is always present and not blank, and the notes are never the empty
    text; the task, the confidence, the source chunk and the speaker are
    the input's, and a second backfill changes nothing. *)
Theorem X4_backfill_result (item : ActionItem) :
  let out := handle_missing_fields item in
  blank (owner out) = false
  /\ (exists d, deadline out = Some d /\ blank d = false)
  /\ notes out <> Some EmptyString
  /\ same_core item out
  /\ handle_missing_fields out = out.
Proof.
  cbv zeta. rewrite (handle_missing_fields_eq item).
  rewrite handle_missing_fields_eq.
  cbn [owner deadline notes task confidence source_chunk speaker].
  pose proof (backfilled_owner_not_blank (owner item)) as Ho.
  pose proof (backfilled_deadline_not_blank (deadline item)) as Hd.
  repeat split.
  - exact Ho.
  - eauto.
  - destruct (notes item) as [[|x n]|]; discriminate.
  - unfold backfilled_owner at 1. rewrite Ho.
    unfold backfilled_deadline at 1. rewrite Hd.
    now destruct (notes item) as [[|x n]|].
Qed.

Lemma handle_missing_fields_core (item : ActionItem) :
  same_core item (handle_missing_fields item).
Proof. rewrite handle_missing_fields_eq. now repeat split. Qed.

Lemma handle_edge_case_core (item : ActionItem) :
  same_core item (handle_edge_case item).
Proof.
  pose proof (handle_missing_fields_core item) as Hcore.
  unfold handle_edge_case.
  destruct (handle_missing_fields item) as [t o d c sc sp n].
  cbn [deadline notes]. destruct d as [d|]; [|assumption].
  destruct (PyStr.truthy d
            && existsb (fun term => PyStr.contains term d) vague_deadlines);
    [|assumption].
  now destruct n as [[|x n]|].
Qed.

(** X5.  [handle_edge_cases] returns as many items as it is given, in the
    same order, each with the task, the confidence, the source chunk and
    the speaker of the input item at its place. *)
Theorem X5_edge_cases_frame (items : list ActionItem) :
  length (handle_edge_cases items) = length items
  /\ Forall2 same_core items (handle_edge_cases items).
Proof.
  rewrite handle_edge_cases_map. split; [apply length_map|].
  induction items as [|item rest IH]; simpl; constructor;
    [apply handle_edge_case_core | assumption].
Qed.

Lemma flagged_not_blank (d : string) :
  deadline_flagged d = true -> PyStr.truthy d = true /\ blank d = false.
Proof.
  intros Hf. unfold deadline_flagged, vague_deadlines in Hf.
  cbn [existsb] in Hf.
  assert (Hnb : blank d = false).
  { repeat (apply orb_true_iff in Hf as [Hf|Hf]);
      try discriminate;
      apply contains_head in Hf; eapply not_blank; try exact Hf;
      reflexivity. }
  split; [|assumption].
  unfold blank in Hnb. apply orb_false_iff in Hnb as [Ht _].
  now apply negb_false_iff in Ht.
Qed.

Lemma handle_edge_case_flagged (item : ActionItem) (d : string) :
  deadline item = Some d -> deadline_flagged d = true ->
  handle_edge_case item
  = mkActionItem (task item) (backfilled_owner (owner item))
                 (Some d) (confidence item) (source_chunk item)
                 (speaker item)
                 (Some (notes_text item +:+ deadline_marker)).
Proof.
  intros Hd Hf. destruct (flagged_not_blank d Hf) as [Ht Hb].
  unfold handle_edge_case. rewrite handle_missing_fields_eq, Hd.
  unfold backfilled_deadline. rewrite Hb. cbn [deadline notes].
  fold (deadline_flagged d). rewrite Ht, Hf. cbn [andb].
  unfold notes_text. now destruct (notes item) as [[|x n]|].
Qed.

Lemma handle_edge_case_unflagged (item : ActionItem) :
  (deadline item = None
   \/ exists d, deadline item = Some d /\ deadline_flagged d = false) ->
  handle_edge_case item = handle_missing_fields item.
Proof.
  intros Hd.
  assert (Hf : deadline_flagged (backfilled_deadline (deadline item)) = false).
  { destruct Hd as [->|(d & -> & Hf)]; [reflexivity|].
    unfold backfilled_deadline. now destruct (blank d). }
  unfold handle_edge_case. rewrite handle_missing_fields_eq.
  cbn [deadline]. fold (deadline_flagged (backfilled_deadline (deadline item))).
  now rewrite Hf, andb_false_r.
Qed.

(** X6.  The deadline marker: when the deadline holds one of "soon",
    "ASAP", "when possible", "this week" (as written, capitals included),
    [handle_edge_cases] appends " [DEADLINE NEEDS CLARIFICATION]" to the
    notes the item had, or sets the notes to the marker alone when it had
    none; when the deadline is missing or holds none of these terms, the
    item is only backfilled. *)
Theorem X6_deadline_marker (item : ActionItem) :
  (forall d, deadline item = Some d -> deadline_flagged d = true ->
     notes (handle_edge_case item)
     = Some (notes_text item +:+ " [DEADLINE NEEDS CLARIFICATION]")
     /\ deadline (handle_edge_case item) = Some d)
  /\ ((deadline item = None
       \/ exists d, deadline item = Some d /\ deadline_flagged d = false) ->
      handle_edge_case item = handle_missing_fields item).
Proof.
  split.
  - intros d Hd Hf. rewrite (handle_edge_case_flagged item d Hd Hf).
    now split.
  - apply handle_edge_case_unflagged.
Qed.

Lemma X6_deadline_marker_witness :
  notes (handle_edge_case
           (mkActionItem "Book the venue" "Priya" (Some "as soon as we can")
                         PyFloat.f0_9 None None (Some "check budget")))
  = Some "check budget [DEADLINE NEEDS CLARIFICATION]"
  /\ notes (handle_edge_case
              (mkActionItem "Book the venue" "Priya" (Some "asap")
                            PyFloat.f0_9 None None (Some "check budget")))
     = Some "check budget".
Proof.
  split.
  - refine (proj1 (proj1 (X6_deadline_marker _) "as soon as we can" _ _));
      reflexivity.
  - rewrite (proj2 (X6_deadline_marker _)); [reflexivity|].
    right. exists "asap". split; reflexivity.
Defined.

(** X7.  The marker adds up: [handle_edge_cases] applied to its own output
    appends the marker to the notes a second time. *)
Theorem X7_marker_twice (item : ActionItem) (d : string) :
  deadline item = Some d -> deadline_flagged d = true ->
  notes (handle_edge_case (handle_edge_case item))
  = Some ((notes_text item +:+ " [DEADLINE NEEDS CLARIFICATION]")
          +:+ " [DEADLINE NEEDS CLARIFICATION]").
Proof.
  intros Hd Hf. rewrite (handle_edge_case_flagged item d Hd Hf).
  set (once := mkActionItem _ _ _ _ _ _ _).
  now rewrite (handle_edge_case_flagged once d eq_refl Hf).
Qed.

Lemma X7_marker_twice_witness :
  map notes (handle_edge_cases (handle_edge_cases
    [mkActionItem "Book the venue" "Priya" (Some "ASAP") PyFloat.f0_9
                  None None None]))
  = [Some " [DEADLINE NEEDS CLARIFICATION] [DEADLINE NEEDS CLARIFICATION]"].
Proof.
  rewrite !handle_edge_cases_map. cbn [map].
  exact (f_equal (fun n => [n])
           (X7_marker_twice
              (mkActionItem "Book the venue" "Priya" (Some "ASAP")
                            PyFloat.f0_9 None None None)
              "ASAP" eq_refl eq_refl)).
Defined.

(** X8.  The last step of the pipeline: every item that
    [handle_edge_cases] returns for the accepted items of [validate_batch]
    is still accepted by [validate_item]. *)
Theorem X8_edge_cases_keep_validity (self : ValidationLayer)
    (items : list ActionItem) :
  Forall (fun item => (validate_item self item).1 = true)
         (handle_edge_cases (validate_batch self items).1).
Proof.
  rewrite validate_batch_filter, handle_edge_cases_map. cbn [fst].
  apply List.Forall_map, List.Forall_forall. intros item Hin.
  apply List.filter_In in Hin as [_ Hv]. unfold is_valid in Hv.
  destruct (handle_edge_case_core item) as (Ht & Hc & _).
  revert Hv. unfold validate_item. now rewrite Ht, Hc.
Qed.

(** ** confidence_chain.py *)

(** X9.  The clamp of [score_confidence]: a score strictly between 0 and 1
    is returned as it is; a score of 1 or more, and also NaN, gives 1.0; a
    score of 0 or less gives 0.0. *)
Theorem X9_clamp_cases (x : float) :
  (PyFloat.lt PyFloat.zero x = true -> PyFloat.lt x PyFloat.one = true ->
   clamp x = x)
  /\ (PyFloat.le PyFloat.one x = true -> clamp x = PyFloat.one)
  /\ (x = S754_nan -> clamp x = PyFloat.one)
  /\ (PyFloat.le x PyFloat.zero = true -> clamp x = PyFloat.zero).
Proof.
  unfold clamp, PyFloat.max, PyFloat.min, PyFloat.gt. repeat split.
  - intros H0 H1. unfold PyFloat.lt in *. now rewrite H1, H0.
  - intros H1. pose proof (float_le_not_lt _ _ H1) as H2.
    unfold PyFloat.lt in *. now rewrite H2.
  - now intros ->.
  - intros H0.
    assert (H1 : PyFloat.lt x PyFloat.one = true).
    { destruct x as [s|s| |s m e]; try destruct s; try discriminate;
        reflexivity. }
    pose proof (float_le_not_lt _ _ H0) as H2.
    unfold PyFloat.lt in *. now rewrite H1, H2.
Qed.

Lemma X9_clamp_cases_witness :
  clamp PyFloat.f0_4 = PyFloat.f0_4
  /\ clamp PyFloat.f1_5 = PyFloat.one
  /\ clamp S754_nan = PyFloat.one
  /\ clamp (S754_infinity true) = PyFloat.zero.
Proof.
  split; [|split; [|split]].
  - apply (proj1 (X9_clamp_cases PyFloat.f0_4)); reflexivity.
  - apply (proj1 (proj2 (X9_clamp_cases PyFloat.f1_5))); reflexivity.
  - apply (proj1 (proj2 (proj2 (X9_clamp_cases S754_nan)))); reflexivity.
  - apply (proj2 (proj2 (proj2 (X9_clamp_cases (S754_infinity true)))));
      reflexivity.
Defined.

Section ConfidenceChainCalls.
Context `{PyRuntime} `{Collaborator}.

Lemma score_confidence_raised (item : ActionItem) (w : World) (e : exn) :
  answer w (confidence_prompt item) = Raised e ->
  score_confidence item w = (inl (surfaced e), w ++ [confidence_prompt item]).
Proof.
  intros Ha. unfold score_confidence, bind, invoke, surfaced. rewrite Ha.
  now destruct (is_ValueError_or_AttributeError e).
Qed.

Lemma score_batch_loop_world (items acc : list ActionItem) (w : World) :
  (forall w' p, exists text, answer w' p = Content text) ->
  (score_batch_loop items acc w).2 = w ++ map confidence_prompt items.
Proof.
  intros Htext. revert acc w.
  induction items as [|item rest IH]; intros acc w.
  - simpl. now rewrite app_nil_r.
  - destruct (Htext w (confidence_prompt item)) as [text Ha].
    cbn [score_batch_loop]. unfold bind at 1.
    rewrite (score_confidence_content item w text Ha).
    rewrite IH. cbn [map]. now rewrite <- app_assoc.
Qed.

(** X10.  With a service that answers every prompt with text,
    [score_batch] sends exactly one prompt for each item, in the order of
    the items, and each prompt is the one built from that item. *)
Theorem X10_score_batch_prompts (items : list ActionItem) (w : World) :
  (forall w' p, exists text, answer w' p = Content text) ->
  (score_batch items w).2 = w ++ map confidence_prompt items.
Proof. intros Htext. now apply score_batch_loop_world. Qed.

Lemma score_batch_loop_raised (before after acc : list ActionItem)
    (item : ActionItem) (w : World) (e : exn) :
  (forall k item_k, before !! k = Some item_k ->
     exists text,
       answer (w ++ map confidence_prompt (take k before))
              (confidence_prompt item_k) = Content text) ->
  answer (w ++ map confidence_prompt before) (confidence_prompt item)
  = Raised e ->
  score_batch_loop (before ++ item :: after) acc w
  = (inl (surfaced e), w ++ map confidence_prompt (before ++ [item])).
Proof.
  revert acc w. induction before as [|b before IH]; intros acc w Hb He.
  - simpl in *. rewrite app_nil_r in He. unfold bind.
    now rewrite (score_confidence_raised item w e He).
  - destruct (Hb 0%nat b eq_refl) as [text Ha].
    simpl in Ha. rewrite app_nil_r in Ha.
    cbn [app score_batch_loop]. unfold bind at 1.
    rewrite (score_confidence_content b w text Ha).
    rewrite IH.
    + cbn [map app]. now rewrite <- app_assoc.
    + intros k item_k Hk. destruct (Hb (S k) item_k Hk) as [text' Ha'].
      exists text'. cbn [take map] in Ha'.
      now rewrite <- app_assoc.
    + cbn [map] in He. now rewrite <- app_assoc.
Qed.

(** X11.  [score_batch] stops at the first call that raises: when the
    service answers the items before [item] with text and raises on
    [item], the exception leaves [score_batch] (a [ValueError] or an
    [AttributeError] of the call as the [UnboundLocalError] of the
    handler's log line), no list is returned, and no prompt is sent for the
    items after it. *)
Theorem X11_score_batch_stops (before after : list ActionItem)
    (item : ActionItem) (w : World) (e : exn) :
  (forall k item_k, before !! k = Some item_k ->
     exists text,
       answer (w ++ map confidence_prompt (take k before))
              (confidence_prompt item_k) = Content text) ->
  answer (w ++ map confidence_prompt before) (confidence_prompt item)
  = Raised e ->
  score_batch (before ++ item :: after) w
  = (inl (surfaced e), w ++ map confidence_prompt (before ++ [item])).
Proof. intros Hb He. now apply score_batch_loop_raised. Qed.

End ConfidenceChainCalls.

Lemma X10_score_batch_prompts_witness :
  let rt := fixture_runtime [("0.9", PyFloat.f0_9)] [] in
  let llm := scripted [Content "0.9"] (Content "n/a") in
  (@score_batch rt llm [call_bob; call_bob] []).2
  = [confidence_prompt call_bob; confidence_prompt call_bob].
Proof.
  intros rt llm. apply (@X10_score_batch_prompts rt llm).
  intros w' p. simpl. generalize (length w').
  intros [|[|n]]; simpl; eexists; reflexivity.
Defined.

Lemma X11_score_batch_stops_witness :
  let rt := fixture_runtime [("0.9", PyFloat.f0_9)] [] in
  let llm := scripted [Content "0.9"; Raised (ValueError "bad request")]
                      (Content "n/a") in
  @score_batch rt llm [call_bob; call_bob; call_bob] []
  = (inl (UnboundLocalError "score_text"),
     [confidence_prompt call_bob; confidence_prompt call_bob]).
Proof.
  intros rt llm.
  apply (@X11_score_batch_stops rt llm [call_bob] [call_bob] call_bob []
           (ValueError "bad request")).
  - intros [|k] item_k Hk; [|discriminate]. eexists. reflexivity.
  - reflexivity.
Defined.

(** ** map_chain.py and reduce_chain.py: the text handed to the parser *)

Section Span.
Variables o c : ascii.
Hypothesis o_c : o <> c.

Lemma rfind_split (s : string) :
  PyStr.has_char c s = true ->
  exists middle after,
    s = middle +:+ String c after
    /\ PyStr.has_char c after = false
    /\ PyStr.rfind c s = Z.of_nat (String.length middle).
Proof.
  induction s as [|d s IH]; [discriminate|].
  intros Hin. destruct (PyStr.has_char c s) eqn:Hs.
  - destruct (IH eq_refl) as (middle & after & -> & Hafter & Hr).
    exists (String d middle), after. repeat split; [assumption|].
    cbn [PyStr.rfind]. rewrite Hr.
    destruct (Z.eqb_spec (Z.of_nat (String.length middle)) (-1)); [lia|].
    cbn [String.length]. lia.
  - simpl in Hin. rewrite Hs, orb_false_r in Hin.
    apply Ascii.eqb_eq in Hin. subst d.
    exists EmptyString, s. repeat split; [assumption|].
    cbn [PyStr.rfind]. rewrite (proj2 (rfind_none c s) Hs).
    now rewrite Ascii.eqb_refl.
Qed.

Lemma substring_through (middle after : string) :
  String.substring 0 (S (String.length middle)) (middle +:+ String c after)
  = middle +:+ String c EmptyString.
Proof.
  induction middle as [|d middle IH]; simpl; [now destruct after|].
  now rewrite IH.
Qed.

(** X12.  The text handed to [json.loads]: when a response holds an opening
    delimiter and a closing one after it, the slice the chains cut out runs
    from the first opening delimiter of the response to its last closing
    one, both included; nothing before it holds an opening delimiter and
    nothing after it a closing one. *)
Theorem X12_json_str_span (text : string) :
  located o c text = true ->
  exists before middle after,
    text = before +:+ String o (middle +:+ String c after)
    /\ PyStr.has_char o before = false
    /\ PyStr.has_char c after = false
    /\ json_str o c text = String o (middle +:+ String c EmptyString).
Proof.
  induction text as [|d s IH]; [discriminate|].
  rewrite (located_cons o c o_c). unfold json_str. cbn [PyStr.find PyStr.rfind].
  destruct (Ascii.eqb_spec d o) as [->|Hd].
  - intros Hin.
    destruct (rfind_split s Hin) as (middle & after & -> & Hafter & Hr).
    exists EmptyString, middle, after. repeat split; [assumption|].
    rewrite Hr.
    destruct (Z.eqb_spec (Z.of_nat (String.length middle)) (-1)); [lia|].
    unfold PyStr.slice.
    replace (Z.to_nat (Z.of_nat (String.length middle) + 1 + 1 - 0))
      with (S (S (String.length middle))) by lia.
    cbn [Z.to_nat String.substring]. f_equal. apply substring_through.
  - intros Hloc.
    destruct (IH Hloc) as (before & middle & after & Hs & Hb & Ha & Hj).
    exists (String d before), middle, after.
    split; [now rewrite Hs|]. split.
    { simpl. rewrite Hb. apply orb_false_iff. split; [|reflexivity].
      now apply Ascii.eqb_neq. }
    split; [assumption|].
    rewrite <- Hj. unfold json_str.
    unfold located in Hloc. apply andb_prop in Hloc as [Hf Hr].
    apply negb_true_iff in Hf.
    pose proof (find_lower_bound o s) as HF.
    pose proof (rfind_lower_bound c s) as HR.
    apply Z.gtb_lt in Hr.
    rewrite Hf.
    destruct (Z.eqb_spec (PyStr.find o s) (-1)) as [|Hne]; [discriminate|].
    destruct (Z.eqb_spec (PyStr.rfind c s) (-1)) as [|Hrne]; [lia|].
    unfold PyStr.slice.
    replace (Z.to_nat (PyStr.find o s + 1))
      with (S (Z.to_nat (PyStr.find o s))) by lia.
    replace (PyStr.rfind c s + 1 + 1 - (PyStr.find o s + 1))
      with (PyStr.rfind c s + 1 - PyStr.find o s) by lia.
    reflexivity.
Qed.

End Span.

Lemma X12_json_str_span_witness :
  exists before middle after,
    "Items: [1, [2]] ok]." 
    = before +:+ String bracket_open (middle +:+ String bracket_close after)
    /\ PyStr.has_char bracket_open before = false
    /\ PyStr.has_char bracket_close after = false
    /\ json_str bracket_open bracket_close "Items: [1, [2]] ok]."
       = String bracket_open (middle +:+ String bracket_close EmptyString).
Proof.
  apply (X12_json_str_span bracket_open bracket_close);
    [discriminate | reflexivity].
Defined.

(** ** map_chain.py *)

Section MapMore.
Context `{PyRuntime} `{Collaborator}.

Lemma ActionItem_of_accepted (item_data : json) :
  accepted [item_data]
  = match ActionItem_of item_data with inr item => [item] | inl _ => [] end.
Proof.
  unfold accepted, ActionItem_of. destruct item_data; try reflexivity.
  simpl. now destruct (new_ActionItem members).
Qed.

Lemma map_items_from (elems : list json) (chunk_index : Z)
    (acc : list ActionItem) :
  fold_left (fun items item_data =>
               match ActionItem_of item_data with
               | inr item =>
                   items ++ [set_source_chunk (Some chunk_index) item]
               | inl _ => items
               end) elems acc
  = acc ++ map (set_source_chunk (Some chunk_index)) (accepted elems).
Proof.
  revert acc. induction elems as [|e elems IH]; intros acc.
  - simpl. now rewrite app_nil_r.
  - cbn [fold_left]. rewrite IH.
    change (e :: elems) with ([e] ++ elems).
    unfold accepted at 2. rewrite omap_app. fold (accepted [e]).
    fold (accepted elems). rewrite ActionItem_of_accepted.
    destruct (ActionItem_of e) as [err|item]; [reflexivity|].
    simpl. now rewrite <- app_assoc.
Qed.

Lemma reduce_items_from (elems : list json) (acc : list ActionItem) :
  fold_left (fun consolidated_items item_data =>
               match ActionItem_of item_data with
               | inr item => consolidated_items ++ [item]
               | inl _ => consolidated_items
               end) elems acc
  = acc ++ accepted elems.
Proof.
  revert acc. induction elems as [|e elems IH]; intros acc.
  - simpl. now rewrite app_nil_r.
  - cbn [fold_left]. rewrite IH.
    change (e :: elems) with ([e] ++ elems).
    unfold accepted at 2. rewrite omap_app. fold (accepted [e]).
    fold (accepted elems). rewrite ActionItem_of_accepted.
    destruct (ActionItem_of e) as [err|item]; [reflexivity|].
    simpl. now rewrite <- app_assoc.
Qed.

(** X13.  Tolerant parsing in [extract]: when the response holds an array
    that [json.loads] reads as a list, the output holds exactly the
    elements the [ActionItem] constructor accepts, in the order of the
    array, each stamped with the chunk index; an element it refuses is
    left out without any effect on the others, and the error field stays
    [None]. *)
Theorem X13_extract_tolerant (self : MapChain) (chunk_text : string)
    (chunk_index total_chunks : Z) (w : World)
    (user_prompt text : string) (elems : list json) :
  str_format (user_prompt_template self) "transcript_chunk" chunk_text
  = inr user_prompt ->
  answer w (full_prompt self user_prompt) = Content text ->
  located bracket_open bracket_close text = true ->
  json_loads (json_str bracket_open bracket_close text) = inr (JArray elems) ->
  (extract self chunk_text chunk_index total_chunks w).1
  = mkMapPhaseOutput
      (map (set_source_chunk (Some chunk_index)) (accepted elems))
      chunk_index total_chunks None.
Proof.
  intros Hf Ha Hloc Hj. rewrite (extract_content _ _ _ _ _ _ _ Hf Ha).
  cbn [fst]. unfold parse_map_response. rewrite Hloc, Hj. cbn [iterate].
  unfold map_items. now rewrite map_items_from.
Qed.

Lemma extract_total_chunks (self : MapChain) (chunk_text : string)
    (chunk_index total_chunks : Z) (w : World) :
  mp_total_chunks (extract self chunk_text chunk_index total_chunks w).1
  = total_chunks.
Proof.
  unfold extract.
  destruct (str_format (user_prompt_template self) "transcript_chunk"
                       chunk_text) as [e|user_prompt]; simpl;
    [reflexivity|].
  unfold bind, invoke.
  destruct (answer w (full_prompt self user_prompt)) as [e|text]; simpl;
    [reflexivity|].
  unfold parse_map_response.
  destruct (if located bracket_open bracket_close text
            then json_loads (json_str bracket_open bracket_close text)
            else inr (JArray [])) as [msg|items_data]; simpl;
    [reflexivity|].
  now destruct (iterate items_data).
Qed.

Lemma extract_batch_loop_outputs (self : MapChain) (chunks : list string)
    (i n : Z) (w : World) :
  map (fun o => (mp_chunk_index o, mp_total_chunks o))
      (extract_batch_loop self chunks i n w).1
  = map (fun k => (i + Z.of_nat k, n)) (seq 0 (length chunks)).
Proof.
  revert i w. induction chunks as [|chunk rest IH]; intros i w;
    [reflexivity|].
  cbn [extract_batch_loop]. unfold bind at 1.
  pose proof (extract_chunk_index self chunk i n w) as Hidx.
  pose proof (extract_total_chunks self chunk i n w) as Htot.
  destruct (extract self chunk i n w) as [result w1]. unfold bind.
  specialize (IH (i + 1) w1).
  destruct (extract_batch_loop self rest (i + 1) n w1) as [results w2].
  simpl in *. rewrite Hidx, Htot, IH, Z.add_0_r. f_equal.
  rewrite <- seq_shift, map_map. apply map_ext. intros k. f_equal. lia.
Qed.

(** X14.  [extract_batch] returns one output for each chunk, in the order
    of the chunks, whatever happens to the single chunks: the output at
    place [k] has chunk index [k], and every output has the number of
    chunks as its [total_chunks]. *)
Theorem X14_extract_batch_outputs (self : MapChain) (chunks : list string)
    (w : World) :
  map (fun o => (mp_chunk_index o, mp_total_chunks o))
      (extract_batch self chunks w).1
  = map (fun k => (Z.of_nat k, len chunks)) (seq 0 (length chunks))
  /\ length (extract_batch self chunks w).1 = length chunks.
Proof.
  pose proof (extract_batch_loop_outputs self chunks 0 (len chunks) w) as Ho.
  split; [exact Ho|].
  apply (f_equal (@length _)) in Ho.
  now rewrite !length_map, length_seq in Ho.
Qed.

End MapMore.

Lemma X13_extract_tolerant_witness :
  let rt := fixture_runtime []
              [("[{}, 7]", inr (JArray [JObject []; JInt 7]));
               (demo_array_text, inr demo_array_value)] in
  let llm := scripted [Content ("Here you are: " +:+ demo_array_text);
                       Content "[{}, 7]"]
                      (Raised (OtherError "connection refused")) in
  (@extract rt llm demo_map_chain "Ann: call Bob" 3 5 []).1
  = mkMapPhaseOutput [call_bob] 3 5 None
  /\ (@extract rt llm demo_map_chain "Ann: call Bob" 3 5 ["earlier"]).1
     = mkMapPhaseOutput [] 3 5 None.
Proof.
  intros rt llm. split.
  - apply (@X13_extract_tolerant rt llm demo_map_chain "Ann: call Bob" 3 5
             [] "Transcript: Ann: call Bob"
             ("Here you are: " +:+ demo_array_text)
             [JObject [("task", JString "Call Bob");
                       ("source_chunk", JInt 7)]]); reflexivity.
  - apply (@X13_extract_tolerant rt llm demo_map_chain "Ann: call Bob" 3 5
             ["earlier"] "Transcript: Ann: call Bob" "[{}, 7]"
             [JObject []; JInt 7]); reflexivity.
Defined.

(** ** reduce_chain.py *)

Section ReduceMore.
Context `{PyRuntime} `{Collaborator}.

Lemma build_reduce_output_items (result_data : json) (n : Z)
    (output : ReducePhaseOutput) :
  build_reduce_output result_data n = inr output ->
  exists (elems : list json) (d f : Z),
    output = mkReducePhaseOutput (accepted elems) d f
               (Some (consolidated_note n)).
Proof.
  unfold build_reduce_output.
  destruct (dict_get result_data "items") as [e|items_field]; [discriminate|].
  destruct (iterate (default (JArray []) items_field)) as [e|elems];
    [discriminate|].
  destruct (dict_get result_data "summary") as [e|summary_field];
    [discriminate|].
  destruct (summary_counter (default (JObject []) summary_field)
                            "duplicates_removed") as [e|d];
    [discriminate|].
  destruct (summary_counter (default (JObject []) summary_field)
                            "items_needing_review") as [e|f];
    [discriminate|].
  intros [= <-]. exists elems, d, f.
  unfold reduce_items. now rewrite reduce_items_from.
Qed.

(** X15.  Every output of [consolidate] has one of three shapes.  For no
    items it is the empty result without a note.  For some items it is
    either the fallback, which holds the very items given with both
    counters zero under a note that starts with "Error: " or with
    "Consolidation failed: ", or a result under the note "Consolidated from
    n items", n being the number of items given, whose items are the
    elements of one list that the [ActionItem] constructor accepts.  The
    items given are kept in the fallback only: under the note of a
    consolidation the list may be shorter than the input, or empty. *)
Theorem X15_consolidate_shapes (self : ReduceChain)
    (items : list ActionItem) (w : World) :
  let output := (consolidate self items w).1 in
  (items = [] /\ output = mkReducePhaseOutput [] 0 0 None)
  \/ (items <> []
      /\ exists note : string,
           output = originals items note
           /\ (String.prefix "Error: " note = true
               \/ String.prefix "Consolidation failed: " note = true))
  \/ (items <> []
      /\ exists (elems : list json) (d f : Z),
           output = mkReducePhaseOutput (accepted elems) d f
                      (Some (consolidated_note (len items)))).
Proof.
  cbv zeta. destruct items as [|item rest]; [left; now split|].
  right. unfold consolidate.
  destruct (str_format (user_prompt_template self) "items_json"
                       (json_dumps_items (item :: rest)))
    as [e|user_prompt].
  { left. split; [discriminate|]. eexists. split; [reflexivity|].
    left. apply prefix_append. }
  unfold bind, invoke.
  destruct (answer w (full_prompt self user_prompt)) as [e|text].
  { left. split; [discriminate|]. eexists. split; [reflexivity|].
    left. apply prefix_append. }
  cbn [ret fst]. unfold parse_reduce_response.
  destruct (if located brace_open brace_close text
            then json_loads (json_str brace_open brace_close text)
            else inr (JObject [("items", JArray [])]))
    as [msg|result_data].
  { left. split; [discriminate|]. eexists. split; [reflexivity|].
    right. apply prefix_append. }
  destruct (build_reduce_output result_data
                                (Z.of_nat (length (item :: rest))))
    as [e|output] eqn:Hb.
  { left. split; [discriminate|]. eexists. split; [reflexivity|].
    left. apply prefix_append. }
  right. split; [discriminate|].
  exact (build_reduce_output_items _ _ _ Hb).
Qed.

(** Under the note of a consolidation the list can be empty: a response
    without braces (the input of C1), and a response whose only element
    the constructor refuses. *)
Example consolidate_shorter_under_success_note :
  let down := Raised (OtherError "connection refused") in
  (@consolidate demo_reduce_runtime
     (scripted [Content "I could not merge anything."] down)
     demo_reduce_chain [call_bob; call_bob] []).1
  = mkReducePhaseOutput [] 0 0 (Some (consolidated_note 2))
  /\ (@consolidate demo_reduce_runtime
        (scripted [Content demo_refused_text] down)
        demo_reduce_chain [call_bob; call_bob] []).1
     = mkReducePhaseOutput [] 0 0 (Some (consolidated_note 2)).
Proof. split; reflexivity. Qed.


(** X17.  What goes wrong in [consolidate] gives the items back: when the
    prompt template cannot be formatted (and then no call is made), when
    the call raises, when [json.loads] refuses the object, and when the
    object's "summary" is not itself an object (whatever else the object
    holds), the output holds the items given, unchanged and in their order,
    with both counters zero. *)
Theorem X17_consolidate_fallbacks (self : ReduceChain) (item : ActionItem)
    (rest : list ActionItem) (w : World) :
  let run := consolidate self (item :: rest) w in
  (forall e,
     str_format (user_prompt_template self) "items_json"
                (json_dumps_items (item :: rest)) = inl e ->
     run = (originals (item :: rest) ("Error: " +:+ str_of_exn e), w))
  /\ (forall user_prompt,
        str_format (user_prompt_template self) "items_json"
                   (json_dumps_items (item :: rest)) = inr user_prompt ->
        (forall e,
           answer w (full_prompt self user_prompt) = Raised e ->
           run.1 = originals (item :: rest) ("Error: " +:+ str_of_exn e))
        /\ (forall text msg,
              answer w (full_prompt self user_prompt) = Content text ->
              located brace_open brace_close text = true ->
              json_loads (json_str brace_open brace_close text) = inl msg ->
              run.1 = originals (item :: rest)
                        ("Consolidation failed: " +:+ msg))
        /\ (forall text members summary,
              answer w (full_prompt self user_prompt) = Content text ->
              located brace_open brace_close text = true ->
              json_loads (json_str brace_open brace_close text)
              = inr (JObject members) ->
              assoc "summary" members = Some summary ->
              (forall fields, summary <> JObject fields) ->
              rp_items run.1 = item :: rest
              /\ duplicates_removed run.1 = 0
              /\ fields_filled run.1 = 0)).
Proof.
  cbv zeta. split.
  - intros e Hf. unfold consolidate. now rewrite Hf.
  - intros user_prompt Hf. split; [|split].
    + intros e Ha. unfold consolidate. rewrite Hf. unfold bind, invoke.
      now rewrite Ha.
    + intros text msg Ha Hloc Hj.
      rewrite (consolidate_content _ _ _ _ _ _ Hf Ha). cbn [fst].
      unfold parse_reduce_response. now rewrite Hloc, Hj.
    + intros text members summary Ha Hloc Hj Hs Hno.
      rewrite (consolidate_content _ _ _ _ _ _ Hf Ha). cbn [fst].
      unfold parse_reduce_response. rewrite Hloc, Hj.
      unfold build_reduce_output, dict_get. rewrite Hs.
      destruct (iterate (default (JArray []) (assoc "items" members)))
        as [e|elems]; [now repeat split|].
      cbn [default id]. unfold summary_counter, dict_get.
      destruct summary; try (now repeat split).
      now destruct (Hno members0).
Qed.

End ReduceMore.


Lemma X17_consolidate_fallbacks_witness :
  let down := Raised (OtherError "connection refused") in
  @consolidate broken_template_runtime (scripted [] down)
     demo_reduce_chain [call_bob] []
  = (originals [call_bob] "Error: 'meeting'", [])
  /\ (@consolidate demo_reduce_runtime (scripted [] down)
        demo_reduce_chain [call_bob] []).1
     = originals [call_bob] "Error: connection refused"
  /\ (@consolidate demo_reduce_runtime (scripted [Content "{items: none}"] down)
        demo_reduce_chain [call_bob] []).1
     = originals [call_bob]
         "Consolidation failed: Expecting property name enclosed in double quotes: line 1 column 2 (char 1)"
  /\ rp_items (@consolidate demo_reduce_runtime
                 (scripted [Content demo_bad_summary_text] down)
                 demo_reduce_chain [call_bob] []).1
     = [call_bob].
Proof.
  intros down. split; [|split; [|split]].
  - apply (proj1 (@X17_consolidate_fallbacks broken_template_runtime
                    (scripted [] down) demo_reduce_chain call_bob [] [])
                 (OtherError "'meeting'")).
    reflexivity.
  - destruct (proj2 (@X17_consolidate_fallbacks demo_reduce_runtime
                       (scripted [] down) demo_reduce_chain call_bob [] [])
                    "Items: [Call Bob]" eq_refl) as (Hraise & _ & _).
    apply (Hraise (OtherError "connection refused")). reflexivity.
  - destruct (proj2 (@X17_consolidate_fallbacks demo_reduce_runtime
                       (scripted [Content "{items: none}"] down)
                       demo_reduce_chain call_bob [] [])
                    "Items: [Call Bob]" eq_refl) as (_ & Hdecode & _).
    apply (Hdecode "{items: none}"); reflexivity.
  - destruct (proj2 (@X17_consolidate_fallbacks demo_reduce_runtime
                       (scripted [Content demo_bad_summary_text] down)
                       demo_reduce_chain call_bob [] [])
                    "Items: [Call Bob]" eq_refl) as (_ & _ & Hsummary).
    apply (Hsummary demo_bad_summary_text
                    [("items", JArray [JObject [("task", JString "Call Bob")]]);
                     ("summary", JArray [])]
                    (JArray [])); try reflexivity.
    intros fields. discriminate.
Defined.

(** ** document_loader.py *)

Lemma line_document_lookup (source : string)
    (extra : option (gmap string pyval)) (i : Z) (line key : string) :
  overrides extra key = None ->
  metadata (line_document source extra i line) !! key
  = (<["speaker" := PyStr match PyStr.split_once PyStr.colon line with
                          | Some (before, _) => PyStr.strip before
                          | None => "Unknown"
                          end]>
       (<["original_text" := PyStr line]>
          (<["line_index" := PyInt i]>
             ({["source" := PyStr source]} : gmap string pyval)))) !! key.
Proof.
  intros Hkey. unfold line_document.
  destruct (PyStr.split_once PyStr.colon line) as [[before after]|];
    destruct extra as [m|]; cbn [metadata]; try reflexivity;
    (destruct (decide (m = ∅)); [reflexivity|];
     now apply lookup_union_r).
Qed.

Lemma ingest_lines_original (source : string)
    (extra : option (gmap string pyval)) (i : Z) (lines : list string) :
  overrides extra "original_text" = None ->
  omap original_text (ingest_lines source extra i lines)
  = List.filter nonblank lines.
Proof.
  intros Hkey. revert i.
  induction lines as [|line rest IH]; intros i; [reflexivity|].
  cbn [ingest_lines List.filter]. unfold nonblank at 1.
  destruct (PyStr.truthy (PyStr.strip line)); [|apply IH].
  cbn [omap list_omap]. unfold original_text at 1.
  rewrite (line_document_lookup _ _ _ _ _ Hkey).
  rewrite lookup_insert_ne by discriminate. rewrite lookup_insert_eq.
  f_equal. apply IH.
Qed.

(** X18.  [ingest] records the line every document was made from: unless
    the caller's extra metadata has an "original_text" key of its own, the
    "original_text" metadata of the documents are the lines of the stripped
    transcript, [text.strip()], that are not blank, one for each document
    and in the transcript's order.  White space at the two ends of the
    transcript is not in them; the lines in between are recorded with
    their own white space. *)
Theorem X18_ingest_keeps_lines (text source : string)
    (extra : option (gmap string pyval)) :
  overrides extra "original_text" = None ->
  omap original_text (ingest text source extra) = transcript_lines text.
Proof. intros Hkey. now apply ingest_lines_original. Qed.

Lemma X18_ingest_keeps_lines_witness :
  omap original_text
       (ingest indented_transcript "notes.txt"
               (Some {["meeting" := PyStr "standup"]}))
  = ["Ann: hello "; "  Ann: one more thing"; "Bob: fine"].
Proof.
  rewrite X18_ingest_keeps_lines; [reflexivity|].
  cbn [overrides]. now apply lookup_singleton_ne.
Defined.

Lemma ingest_nil (text source : string) (extra : option (gmap string pyval)) :
  transcript_lines text = [] -> ingest text source extra = [].
Proof.
  intros Hnone. pose proof (ingest_contents text source extra) as Hc.
  rewrite Hnone in Hc. now destruct (ingest text source extra).
Qed.

(** X19.  A transcript without any line that is not blank (the empty text,
    or white space and newlines only) gives no chunk at all, with either
    strategy. *)
Theorem X19_blank_transcript (self : DocumentLoader) (text source : string)
    (extra : option (gmap string pyval)) :
  transcript_lines text = [] ->
  process self text source extra = inr [].
Proof.
  intros Hnone. unfold process. rewrite (ingest_nil _ _ _ Hnone).
  destruct (String.eqb (chunk_strategy self) "speaker_turns");
    [reflexivity|].
  now destruct (String.eqb (chunk_strategy self) "time_based").
Qed.

Lemma X19_blank_transcript_witness :
  process (mkDocumentLoader "time_based")
          ("  " +:+ String PyStr.nl (String PyStr.nl " ")) "notes.txt" None
  = inr [].
Proof. apply X19_blank_transcript. reflexivity. Defined.

(** *** Speaker turns: the shape of the chunks *)

Lemma speaker_chunk_num_lines (i : Z) (sp : pyval) (content : list string)
    (doc : Document) :
  content <> [] -> Forall one_line content ->
  num_lines_right (speaker_chunk i sp content doc).
Proof.
  intros Hne Hfree. unfold num_lines_right.
  rewrite (speaker_chunk_lines i sp content doc Hne Hfree).
  unfold speaker_chunk. cbn [metadata].
  rewrite lookup_insert_ne by discriminate. now rewrite lookup_insert_eq.
Qed.

Lemma speaker_chunk_speaker (i : Z) (sp : pyval) (content : list string)
    (doc : Document) :
  speaker_of (speaker_chunk i sp content doc) = Some sp.
Proof.
  unfold speaker_of, speaker_chunk. cbn [metadata].
  rewrite !lookup_insert_ne by discriminate. now rewrite lookup_insert_eq.
Qed.

Lemma turn_step_lines (st : turn_state) (doc : Document) :
  turn_lines st -> one_line (page_content doc) ->
  turn_lines (turn_step st doc).
Proof.
  intros [Hchunks Hcur] Hdoc. unfold turn_step.
  destruct (negb (bool_decide (current_speaker st = PyNone))
            && negb (bool_decide
                       (metadata_get doc "speaker" (PyStr "Unknown")
                        = current_speaker st))).
  - destruct (current_chunk_content st) as [|x xs] eqn:Hc.
    + constructor; cbn [chunks current_chunk_content]; [assumption|].
      rewrite Hc. repeat constructor. exact Hdoc.
    + constructor; cbn [chunks current_chunk_content].
      * apply Forall_app. split; [assumption|]. constructor; [|constructor].
        now apply speaker_chunk_num_lines.
      * repeat constructor. exact Hdoc.
  - constructor; cbn [chunks current_chunk_content]; [assumption|].
    apply Forall_app. split; [assumption|]. now constructor.
Qed.

Lemma turn_fold_lines (documents : list Document) (st : turn_state) :
  turn_lines st -> Forall one_line (map page_content documents) ->
  turn_lines (fold_left turn_step documents st).
Proof.
  revert st. induction documents as [|doc rest IH]; intros st Hst Hdocs;
    [assumption|].
  inversion Hdocs as [|? ? Hdoc Hrest]; subst.
  cbn [fold_left]. apply IH; [|assumption]. now apply turn_step_lines.
Qed.

Lemma chunk_by_speaker_turns_num_lines (documents : list Document) :
  Forall one_line (map page_content documents) ->
  Forall num_lines_right (chunk_by_speaker_turns documents).
Proof.
  intros Hdocs. unfold chunk_by_speaker_turns.
  destruct (last documents) as [last_document|]; [|constructor].
  assert (Hinit : turn_lines (mkturn_state [] [] PyNone 0))
    by (constructor; constructor).
  destruct (turn_fold_lines documents _ Hinit Hdocs) as [Hchunks Hcur].
  destruct (current_chunk_content
              (fold_left turn_step documents (mkturn_state [] [] PyNone 0)))
    as [|x xs] eqn:Hc; [assumption|].
  apply Forall_app. split; [assumption|]. constructor; [|constructor].
  rewrite <- Hc. apply speaker_chunk_num_lines; [now rewrite Hc|].
  now rewrite Hc.
Qed.

Lemma time_chunks_num_lines (batches : list (list Document)) (i : Z) :
  Forall (fun b => Forall one_line (map page_content b)) batches ->
  Forall num_lines_right (time_chunks i batches).
Proof.
  revert i. induction batches as [|b rest IH]; intros i Hfree;
    [constructor|].
  inversion Hfree as [|? ? Hb Hrest]; subst. cbn [time_chunks].
  destruct b as [|first b']; [now apply IH|].
  constructor; [|now apply IH].
  unfold num_lines_right, time_chunk. cbn [metadata page_content].
  rewrite split_join by (discriminate || assumption).
  rewrite lookup_insert_ne by discriminate. rewrite lookup_insert_eq.
  unfold len. now rewrite length_map.
Qed.

(** X20.  The line count of a chunk is right: with either strategy, the
    "num_lines" metadata of every chunk [process] returns is the number of
    lines of the chunk's content. *)
Theorem X20_num_lines (self : DocumentLoader) (text source : string)
    (extra : option (gmap string pyval)) :
  exists chunks : list Document,
    process self text source extra = inr chunks
    /\ Forall num_lines_right chunks.
Proof.
  pose proof (ingest_one_line text source extra) as Hfree.
  pose proof (chunk_by_speaker_turns_num_lines _ Hfree) as Hturns.
  unfold process.
  destruct (String.eqb (chunk_strategy self) "speaker_turns");
    [eexists; split; [reflexivity | exact Hturns]|].
  destruct (String.eqb (chunk_strategy self) "time_based");
    [|eexists; split; [reflexivity | exact Hturns]].
  unfold chunk_by_time, CHUNK_SIZE_MINUTES. cbn [Z.mul Z.eqb Pos.mul].
  eexists. split; [reflexivity|].
  apply time_chunks_num_lines.
  apply List.Forall_map, List.Forall_forall. intros j _.
  apply List.Forall_map.
  apply Forall_take, Forall_drop.
  apply (proj1 (List.Forall_map page_content one_line _) Hfree).
Qed.

Lemma no_repeat_speakers_snoc (l : list Document) (c : Document) :
  no_repeat (map speaker_of l) ->
  (forall c', last l = Some c' -> speaker_of c' <> speaker_of c) ->
  no_repeat (map speaker_of (l ++ [c])).
Proof.
  induction l as [|a l IH]; intros Hl Hlast; [exact I|].
  destruct l as [|b l].
  - simpl. split; [|exact I]. now apply Hlast.
  - destruct Hl as [Hab Hrest]. split; [assumption|].
    apply IH; [assumption|]. intros c' Hc'. now apply Hlast.
Qed.

Lemma turn_step_speakers (st : turn_state) (doc : Document) :
  turn_speakers st ->
  metadata_get doc "speaker" (PyStr "Unknown") <> PyNone ->
  turn_speakers (turn_step st doc).
Proof.
  intros [Hdiff Hlast Hstart Hknown] Hdoc. unfold turn_step.
  set (sp := metadata_get doc "speaker" (PyStr "Unknown")) in *.
  assert (Hfresh : chunks st = [] ->
            turn_speakers
              (mkturn_state (chunks st)
                 (current_chunk_content st ++ [page_content doc]) sp
                 (chunk_index st))).
  { intros Hempty.
    constructor; cbn [chunks current_chunk_content current_speaker].
    - assumption.
    - intros c. rewrite Hempty. discriminate.
    - intros _. exact Hempty.
    - intros _. exact Hdoc. }
  destruct (bool_decide_reflect (current_speaker st = PyNone)) as [Hnone|Hsome];
    cbn [negb andb].
  - apply Hfresh, Hstart.
    destruct (current_chunk_content st) as [|x xs] eqn:Hc; [reflexivity|].
    exfalso. now apply Hknown.
  - destruct (bool_decide_reflect (sp = current_speaker st)) as [Hsame|Hnew];
      cbn [negb].
    + constructor; cbn [chunks current_chunk_content current_speaker].
      * assumption.
      * rewrite Hsame. assumption.
      * intros Hc. now apply app_eq_nil in Hc as [_ ?].
      * intros _. exact Hdoc.
    + destruct (current_chunk_content st) as [|x xs] eqn:Hc.
      * rewrite Hc. apply Hfresh, Hstart. reflexivity.
      * constructor; cbn [chunks current_chunk_content current_speaker].
        -- apply no_repeat_speakers_snoc; [assumption|].
           intros c' Hc'. rewrite speaker_chunk_speaker. now apply Hlast.
        -- intros c. rewrite last_snoc. intros [= <-].
           rewrite speaker_chunk_speaker. congruence.
        -- discriminate.
        -- intros _. exact Hdoc.
Qed.

Lemma turn_fold_speakers (documents : list Document) (st : turn_state) :
  turn_speakers st ->
  Forall (fun doc => metadata_get doc "speaker" (PyStr "Unknown") <> PyNone)
         documents ->
  turn_speakers (fold_left turn_step documents st).
Proof.
  revert st. induction documents as [|doc rest IH]; intros st Hst Hdocs;
    [assumption|].
  inversion Hdocs as [|? ? Hdoc Hrest]; subst.
  cbn [fold_left]. apply IH; [|assumption]. now apply turn_step_speakers.
Qed.

Lemma chunk_by_speaker_turns_speakers (documents : list Document) :
  Forall (fun doc => metadata_get doc "speaker" (PyStr "Unknown") <> PyNone)
         documents ->
  no_repeat (map speaker_of (chunk_by_speaker_turns documents)).
Proof.
  intros Hdocs. unfold chunk_by_speaker_turns.
  destruct (last documents) as [last_document|]; [|exact I].
  assert (Hinit : turn_speakers (mkturn_state [] [] PyNone 0)).
  { constructor; cbn [chunks current_chunk_content current_speaker];
      try exact I; try discriminate; congruence. }
  destruct (turn_fold_speakers documents _ Hinit Hdocs)
    as [Hdiff Hlast _ _].
  destruct (current_chunk_content
              (fold_left turn_step documents (mkturn_state [] [] PyNone 0)));
    [assumption|].
  apply no_repeat_speakers_snoc; [assumption|].
  intros c' Hc'. rewrite speaker_chunk_speaker. now apply Hlast.
Qed.

Lemma ingest_lines_speakers (source : string)
    (extra : option (gmap string pyval)) (i : Z) (lines : list string) :
  overrides extra "speaker" = None ->
  Forall (fun doc => metadata_get doc "speaker" (PyStr "Unknown") <> PyNone)
         (ingest_lines source extra i lines).
Proof.
  intros Hkey. revert i.
  induction lines as [|line rest IH]; intros i; [constructor|].
  cbn [ingest_lines].
  destruct (PyStr.truthy (PyStr.strip line)); [|apply IH].
  constructor; [|apply IH]. unfold metadata_get.
  rewrite (line_document_lookup _ _ _ _ _ Hkey), lookup_insert_eq.
  discriminate.
Qed.

(** X21.  Speaker turns are maximal: with the speaker-turn strategy (also
    when it is chosen because the strategy name is unknown), and unless the
    caller's extra metadata has a "speaker" key of its own, no two
    consecutive chunks of [process] have the same speaker. *)
Theorem X21_turns_change_speaker (self : DocumentLoader)
    (text source : string) (extra : option (gmap string pyval)) :
  String.eqb (chunk_strategy self) "time_based" = false ->
  overrides extra "speaker" = None ->
  exists chunks : list Document,
    process self text source extra = inr chunks
    /\ no_repeat (map speaker_of chunks).
Proof.
  intros Hstrategy Hkey.
  exists (chunk_by_speaker_turns (ingest text source extra)). split.
  - unfold process. rewrite Hstrategy.
    now destruct (String.eqb (chunk_strategy self) "speaker_turns").
  - apply chunk_by_speaker_turns_speakers.
    now apply ingest_lines_speakers.
Qed.

Lemma X21_turns_change_speaker_witness :
  exists chunks : list Document,
    process (mkDocumentLoader "by_topic") demo_transcript "notes.txt" None
    = inr chunks
    /\ map speaker_of chunks
       = [Some (PyStr "Ann"); Some (PyStr "Bob")].
Proof.
  destruct (X21_turns_change_speaker (mkDocumentLoader "by_topic")
              demo_transcript "notes.txt" None eq_refl eq_refl)
    as (chunks & Hrun & _).
  exists chunks. split; [exact Hrun|].
  vm_compute in Hrun. injection Hrun as <-. reflexivity.
Defined.

(** *** Batches of lines: short transcripts *)

Lemma chunk_by_time_short (first : Document) (rest : list Document) :
  (length (first :: rest) < 120)%nat ->
  chunk_by_time (first :: rest) CHUNK_SIZE_MINUTES
  = inr [time_chunk 0 (first :: rest) first].
Proof.
  intros Hshort. unfold chunk_by_time, CHUNK_SIZE_MINUTES.
  change (2 * 30) with 60. cbn [Z.eqb]. f_equal.
  set (documents := first :: rest) in *.
  assert (Hlen : 1 <= len documents < 120).
  { unfold len. subst documents. cbn [length] in *. lia. }
  assert (Hq : 0 <= len documents / 60 < 2).
  { split; [apply Z.div_pos; lia | apply Z.div_lt_upper_bound; lia]. }
  replace (Z.max 1 (len documents / 60)) with 1 by lia.
  rewrite Z.div_1_r.
  replace (Z.to_nat (Z.max 1 (len documents))) with (length documents)
    by (unfold len in *; lia).
  unfold range. subst documents. cbn [length range_from].
  destruct (Nat.ltb_spec 0 (S (length rest))) as [_|]; [|lia].
  rewrite range_from_done by lia. cbn [map drop].
  rewrite take_ge by (cbn [length]; lia). reflexivity.
Qed.

(** X22.  The time-based strategy does not split a short transcript: with
    fewer than 120 lines that are not blank (and at least one), [process]
    returns a single chunk, with index 0, that holds the content of every
    such line. *)
Theorem X22_short_transcript_one_chunk (self : DocumentLoader)
    (text source : string) (extra : option (gmap string pyval)) :
  chunk_strategy self = "time_based" ->
  transcript_lines text <> [] ->
  (length (transcript_lines text) < 120)%nat ->
  exists c : Document,
    process self text source extra = inr [c]
    /\ PyStr.split PyStr.nl (page_content c)
       = map line_content (transcript_lines text)
    /\ metadata c !! "chunk_index" = Some (PyInt 0).
Proof.
  intros Hstrategy Hsome Hshort.
  pose proof (ingest_contents text source extra) as Hc.
  pose proof (ingest_one_line text source extra) as Hfree.
  unfold process. rewrite Hstrategy. cbn [String.eqb Ascii.eqb Bool.eqb].
  destruct (ingest text source extra) as [|first rest] eqn:Hdocs.
  - destruct (transcript_lines text); [congruence | discriminate].
  - rewrite chunk_by_time_short.
    + eexists. split; [reflexivity|]. split.
      * cbn [time_chunk page_content]. rewrite split_join; try assumption.
        discriminate.
      * unfold time_chunk. cbn [metadata].
        rewrite !lookup_insert_ne by discriminate.
        apply lookup_singleton_eq.
    + apply (f_equal (@length _)) in Hc. rewrite !length_map in Hc.
      now rewrite Hc.
Qed.

Lemma X22_short_transcript_one_chunk_witness :
  exists c : Document,
    process (mkDocumentLoader "time_based") demo_transcript "notes.txt" None
    = inr [c]
    /\ PyStr.split PyStr.nl (page_content c)
       = ["hello"; "one more thing"; "fine"].
Proof.
  destruct (X22_short_transcript_one_chunk (mkDocumentLoader "time_based")
              demo_transcript "notes.txt" None eq_refl)
    as (c & Hrun & Hlines & _).
  - discriminate.
  - vm_compute. lia.
  - exists c. split; [exact Hrun | exact Hlines].
Defined.

(** *** Speaker turns: a speaker given by the caller *)

Lemma line_document_speaker_override (source : string)
    (m : gmap string pyval) (i : Z) (line : string) (v : pyval) :
  m !! "speaker" = Some v ->
  metadata_get (line_document source (Some m) i line) "speaker"
               (PyStr "Unknown") = v.
Proof.
  intros Hv. unfold metadata_get, line_document.
  assert (Hne : m <> ∅).
  { intros ->. now rewrite lookup_empty in Hv. }
  destruct (PyStr.split_once PyStr.colon line) as [[before after]|];
    cbn [metadata]; (destruct (decide (m = ∅)); [contradiction|]);
    now rewrite (lookup_union_Some_l _ _ _ _ Hv).
Qed.

Lemma turn_fold_one_speaker (documents : list Document) (v sp : pyval)
    (content : list string) (i : Z) :
  Forall (fun doc => metadata_get doc "speaker" (PyStr "Unknown") = v)
         documents ->
  sp = PyNone \/ sp = v ->
  fold_left turn_step documents (mkturn_state [] content sp i)
  = mkturn_state [] (content ++ map page_content documents)
                 (match documents with [] => sp | _ :: _ => v end) i.
Proof.
  revert sp content. induction documents as [|doc rest IH];
    intros sp content Hdocs Hsp.
  - simpl. now rewrite app_nil_r.
  - inversion Hdocs as [|? ? Hdoc Hrest]; subst.
    assert (Hstep : turn_step (mkturn_state [] content sp i) doc
                    = mkturn_state [] (content ++ [page_content doc])
                        (metadata_get doc "speaker" (PyStr "Unknown")) i).
    { unfold turn_step. cbn [current_speaker current_chunk_content chunks
                              chunk_index].
      destruct Hsp as [->| ->]; [reflexivity|].
      rewrite (bool_decide_eq_true_2 _ eq_refl).
      now rewrite andb_false_r. }
    cbn [fold_left]. rewrite Hstep.
    rewrite (IH _ _ Hrest (or_intror eq_refl)).
    cbn [map]. rewrite <- app_assoc. cbn [app].
    now destruct rest.
Qed.

(** X23.  Extra metadata with a "speaker" key takes the place of the
    speaker read from every line: the speaker-turn strategy then never
    starts a new chunk, and [process] returns one chunk for the whole
    transcript, with that speaker. *)
Theorem X23_speaker_override_one_chunk (self : DocumentLoader)
    (text source : string) (m : gmap string pyval) (v : pyval) :
  String.eqb (chunk_strategy self) "time_based" = false ->
  m !! "speaker" = Some v ->
  transcript_lines text <> [] ->
  exists c : Document,
    process self text source (Some m) = inr [c]
    /\ PyStr.split PyStr.nl (page_content c)
       = map line_content (transcript_lines text)
    /\ speaker_of c = Some v.
Proof.
  intros Hstrategy Hv Hsome.
  pose proof (ingest_contents text source (Some m)) as Hc.
  pose proof (ingest_one_line text source (Some m)) as Hfree.
  assert (Hall : Forall (fun doc => metadata_get doc "speaker"
                                      (PyStr "Unknown") = v)
                        (ingest text source (Some m))).
  { unfold ingest. generalize 0.
    induction (PyStr.split PyStr.nl (PyStr.strip text)) as [|line rest IH];
      intros i; [constructor|].
    cbn [ingest_lines].
    destruct (PyStr.truthy (PyStr.strip line)); [|apply IH].
    constructor; [|apply IH]. now apply line_document_speaker_override. }
  assert (Hrun : process self text source (Some m)
                 = inr (chunk_by_speaker_turns (ingest text source (Some m)))).
  { unfold process. rewrite Hstrategy.
    now destruct (String.eqb (chunk_strategy self) "speaker_turns"). }
  rewrite Hrun. unfold chunk_by_speaker_turns.
  destruct (last (ingest text source (Some m))) as [last_document|] eqn:Hlast.
  - rewrite (turn_fold_one_speaker _ v PyNone [] 0 Hall (or_introl eq_refl)).
    cbn [current_chunk_content chunks app chunk_index current_speaker].
    destruct (ingest text source (Some m)) as [|doc docs] eqn:Hdocs;
      [discriminate|].
    cbn [map] in *. eexists. split; [reflexivity|]. split.
    + cbn [speaker_chunk page_content]. rewrite <- Hc.
      apply split_join; [discriminate | assumption].
    + apply speaker_chunk_speaker.
  - apply last_None in Hlast. rewrite Hlast in Hc.
    destruct (transcript_lines text); [congruence | discriminate].
Qed.

Lemma X23_speaker_override_one_chunk_witness :
  exists c : Document,
    process (mkDocumentLoader "speaker_turns") demo_transcript "notes.txt"
            (Some {["speaker" := PyStr "Panel"]}) = inr [c]
    /\ PyStr.split PyStr.nl (page_content c)
       = ["hello"; "one more thing"; "fine"]
    /\ speaker_of c = Some (PyStr "Panel").
Proof.
  apply (X23_speaker_override_one_chunk (mkDocumentLoader "speaker_turns")
           demo_transcript "notes.txt" {["speaker" := PyStr "Panel"]}
           (PyStr "Panel")).
  - reflexivity.
  - apply lookup_singleton_eq.
  - discriminate.
Defined.

(** *** Lines and speakers *)

Lemma split_once_first (sep : ascii) (before after : string) :
  PyStr.has_char sep before = false ->
  PyStr.split_once sep (before +:+ String sep after) = Some (before, after).
Proof.
  induction before as [|c before IH]; simpl.
  - intros _. now rewrite Ascii.eqb_refl.
  - intros Hfree. apply orb_false_iff in Hfree as [Hc Hb].
    now rewrite Hc, (IH Hb).
Qed.

(** X24.  How [ingest] reads a line: a line "name: said" becomes a document
    whose content is what follows the first colon, stripped of surrounding
    white space (later colons stay in it), and whose speaker is the
    stripped name, so that a line that starts with a time of day, as in
    "10:30 Ann: hi", gets the speaker "10"; a line without a colon becomes
    a document with the speaker "Unknown" and the line itself, not
    stripped, as content. *)
Theorem X24_line_speaker_and_content (source : string)
    (extra : option (gmap string pyval)) (i : Z) :
  overrides extra "speaker" = None ->
  (forall name said,
     PyStr.has_char PyStr.colon name = false ->
     let doc := line_document source extra i
                  (name +:+ String PyStr.colon said) in
     page_content doc = PyStr.strip said
     /\ speaker_of doc = Some (PyStr (PyStr.strip name)))
  /\ (forall line,
        PyStr.has_char PyStr.colon line = false ->
        let doc := line_document source extra i line in
        page_content doc = line
        /\ speaker_of doc = Some (PyStr "Unknown")).
Proof.
  intros Hkey. split.
  - intros name said Hname. cbv zeta. unfold speaker_of.
    rewrite page_content_line_document, (line_document_lookup _ _ _ _ _ Hkey).
    unfold line_content. rewrite (split_once_first _ _ _ Hname).
    now rewrite lookup_insert_eq.
  - intros line Hline. cbv zeta. unfold speaker_of.
    rewrite page_content_line_document, (line_document_lookup _ _ _ _ _ Hkey).
    unfold line_content. rewrite (split_once_none _ _ Hline).
    now rewrite lookup_insert_eq.
Qed.

Lemma X24_line_speaker_and_content_witness :
  let nbsp := String (ascii_of_nat 194) (String (ascii_of_nat 160) EmptyString) in
  let d1 := line_document "notes.txt" None 0 "Ann : ship it at 10:30 " in
  let d2 := line_document "notes.txt" None 1 " (pause) " in
  let d3 := line_document "notes.txt" None 2
              ("10:30 Ann:" +:+ nbsp +:+ "hi") in
  (page_content d1 = "ship it at 10:30"
   /\ speaker_of d1 = Some (PyStr "Ann"))
  /\ (page_content d2 = " (pause) "
      /\ speaker_of d2 = Some (PyStr "Unknown"))
  /\ (page_content d3 = "30 Ann:" +:+ nbsp +:+ "hi"
      /\ speaker_of d3 = Some (PyStr "10")).
Proof.
  intros nbsp d1 d2 d3.
  destruct (X24_line_speaker_and_content "notes.txt" None 0 eq_refl)
    as [Hcolon _].
  destruct (X24_line_speaker_and_content "notes.txt" None 1 eq_refl)
    as [_ Hplain].
  destruct (X24_line_speaker_and_content "notes.txt" None 2 eq_refl)
    as [Hstamp _].
  split; [|split].
  - apply (Hcolon "Ann " " ship it at 10:30 "). reflexivity.
  - apply (Hplain " (pause) "). reflexivity.
  - apply (Hstamp "10" ("30 Ann:" +:+ nbsp +:+ "hi")). reflexivity.
Defined.

(** ** validation.py: objects listed more than once *)

(** X25.  [handle_edge_cases] works on the objects it is given: it returns
    the list it was given, leaves every object that is not listed as it
    was, and rewrites a listed object once for every time it is listed, so
    that an object with a vague deadline that is listed twice ends with the
    marker twice.  On a list that holds no object twice the objects it
    leaves are the items of the by-value reading of the loop. *)
Theorem X25_edge_cases_in_place (mem : Memory) (items : list nat) :
  exists mem' : Memory,
    handle_edge_cases_in_place mem items = (mem', items)
    /\ (forall b, mem' b = Nat.iter (listed b items) handle_edge_case (mem b))
    /\ (forall b, ~ In b items -> mem' b = mem b)
    /\ (List.NoDup items ->
        objects mem' items = handle_edge_cases (objects mem items)).
Proof.
  destruct (handle_edge_cases_in_place_spec mem items) as (mem' & Hrun & Hmem).
  exists mem'. split; [exact Hrun|]. split; [exact Hmem|]. split.
  - intros b Hno. now rewrite Hmem, (listed_absent b items Hno).
  - intros Hnd. destruct (handle_edge_cases_by_value mem items Hnd)
      as (mem2 & Hrun2 & Hobj).
    rewrite Hrun in Hrun2. now injection Hrun2 as <-.
Qed.

Lemma X25_edge_cases_in_place_witness :
  let item := mkActionItem "Book the venue" "Priya" (Some "ASAP")
                           PyFloat.f0_9 (Some 2) None None in
  let mem : Memory := fun _ => item in
  exists mem' : Memory,
    handle_edge_cases_in_place mem [4; 7; 4]%nat = (mem', [4; 7; 4]%nat)
    /\ notes (mem' 4%nat)
       = Some " [DEADLINE NEEDS CLARIFICATION] [DEADLINE NEEDS CLARIFICATION]"
    /\ notes (mem' 7%nat) = Some " [DEADLINE NEEDS CLARIFICATION]"
    /\ mem' 5%nat = item.
Proof.
  intros item mem.
  destruct (X25_edge_cases_in_place mem [4; 7; 4]%nat)
    as (mem' & Hrun & Hmem & Hframe & _).
  exists mem'. split; [exact Hrun|]. split; [|split].
  - now rewrite (Hmem 4%nat).
  - now rewrite (Hmem 7%nat).
  - apply Hframe. cbn [In]. lia.
Defined.
